(** * The storage indexer of [main.py]

    A shallow embedding of the directory scanner ([scan_directory]), the
    category lister ([update_categories]), the refresh of the published tree
    ([update_storage_data]) and the two read handlers ([get_categories],
    [get_storage] with [find_category]), followed by the properties of the
    indexer that the specification states.

    Conventions.
    - Python integers are unbounded: they are [Z].
    - A Python [str] is represented by the bytes of its UTF-8 encoding, a
      [string]; [urllib.parse.quote] works on exactly those bytes.
    - The dictionaries this program builds hold scalar values under string
      keys and, for directories, one list of dictionaries under ['children'].
    - The module-level variables [categories], [storage_data], [id_counter]
      and [category_id_counter] are one record that every operation threads.
    - [os.path] is [posixpath]: the separator is ["/"].
    - Domain. The entry names are those whose [str] encodes as UTF-8: on a
      name with undecodable bytes [urllib.parse.quote] raises
      [UnicodeEncodeError] at line 64, an exception the embedding does not
      have, where [quote] below goes on byte by byte. The trees are shallower
      than the recursion limit of the interpreter. [OSError] is the one
      exception of the walk that the embedding models, so a statement on a
      walk that returns is a statement on the program for names and depths
      in this domain. *)

From Stdlib Require Import ZArith List String Ascii Bool Lia DecimalString Sorted.
From Stdlib Require DecimalN DecimalFacts.
Import ListNotations.

Set Warnings "-register-all".

Open Scope string_scope.
Open Scope Z_scope.

(** ** Python values *)

Inductive scalar : Type :=
| PyNone
| PyInt (z : Z)
| PyStr (s : string).

(** A dictionary: its scalar entries in insertion order, and the value of
    the key ['children'] when the dictionary has that key. *)
Inductive item : Type :=
| Dict (fields : list (string * scalar)) (children : option (list item)).

Definition fields_of (it : item) : list (string * scalar) :=
  match it with Dict fs _ => fs end.

Definition children_of (it : item) : option (list item) :=
  match it with Dict _ ch => ch end.

(** [d.get(k)] on the scalar entries. *)
Fixpoint assoc (k : string) (fs : list (string * scalar)) : option scalar :=
  match fs with
  | [] => None
  | (k', v) :: rest => if String.eqb k k' then Some v else assoc k rest
  end.

Definition get (k : string) (it : item) : option scalar :=
  assoc k (fields_of it).

(** [k in d] for a scalar key, and ['children' in d]. *)
Definition has_field (k : string) (it : item) : bool :=
  match get k it with Some _ => true | None => false end.

Definition has_children (it : item) : bool :=
  match children_of it with Some _ => true | None => false end.

(** [v == z] for an integer [z]: [None] and strings never equal an integer. *)
Definition py_eq_int (v : scalar) (z : Z) : bool :=
  match v with
  | PyInt x => Z.eqb x z
  | _ => false
  end.

(** Truth value of a dictionary: it is false exactly when it has no key. *)
Definition truthy (it : item) : bool :=
  match it with
  | Dict [] None => false
  | _ => true
  end.

(** ** The file system seen by one walk *)

Record stat_result : Type := mkStat { st_ctime : Z; st_size : Z }.

(** One directory entry as [os.scandir] yields it. A directory whose
    [listing] is [None] cannot be listed ([os.scandir] raises), a file whose
    [st] is [None] cannot be examined ([entry.stat()] raises), and [FsOther]
    is an entry for which both [is_dir()] and [is_file()] are false. *)
Inductive fsentry : Type :=
| FsDir (name : string) (listing : option (list fsentry))
| FsFile (name : string) (st : option stat_result)
| FsOther (name : string).

Definition entry_name (e : fsentry) : string :=
  match e with
  | FsDir n _ => n
  | FsFile n _ => n
  | FsOther n => n
  end.

Definition is_dir (e : fsentry) : bool :=
  match e with FsDir _ _ => true | _ => false end.

Definition is_file (e : fsentry) : bool :=
  match e with FsFile _ _ => true | _ => false end.

(** ** Constants of the module *)

Definition BASE_URL : string := "http://127.0.0.1:5000".

(** ** [os.path] (posixpath) *)

Module os_path.

Definition sep : ascii := "/"%char.

Definition startswith (c : ascii) (s : string) : bool :=
  match s with
  | String a _ => Ascii.eqb a c
  | EmptyString => false
  end.

Fixpoint endswith (c : ascii) (s : string) : bool :=
  match s with
  | EmptyString => false
  | String a EmptyString => Ascii.eqb a c
  | String _ r => endswith c r
  end.

(** [join(a, b)]: [b] alone when it is absolute, no separator added after
    an empty [a] or after a trailing separator. *)
Definition join (a b : string) : string :=
  if startswith sep b then b
  else if (String.eqb a "" || endswith sep a)%bool then a ++ b
  else a ++ String sep b.

(** [s.rfind(c)]: the last index of [c], or [-1]. *)
Fixpoint rfind (c : ascii) (s : string) : Z :=
  match s with
  | EmptyString => -1
  | String a r =>
      let i := rfind c r in
      if 0 <=? i then i + 1
      else if Ascii.eqb a c then 0 else -1
  end.

(** The loop of [genericpath._splitext]: is some character at an index in
    [lo, lo + n) different from the dot? *)
Fixpoint non_dot_within (p : string) (lo : nat) (n : nat) : bool :=
  match n with
  | O => false
  | S n' =>
      match String.get lo p with
      | Some a => if Ascii.eqb a "."%char then non_dot_within p (S lo) n' else true
      | None => true
      end
  end.

(** [splitext(p)]: the extension starts at the last dot after the last
    separator, leading dots of the file name excepted. *)
Definition splitext (p : string) : string * string :=
  let sepIndex := rfind sep p in
  let dotIndex := rfind "."%char p in
  if sepIndex <? dotIndex then
    if non_dot_within p (Z.to_nat (sepIndex + 1)) (Z.to_nat (dotIndex - (sepIndex + 1)))
    then (substring 0 (Z.to_nat dotIndex) p,
          substring (Z.to_nat dotIndex) (String.length p - Z.to_nat dotIndex) p)
    else (p, "")
  else (p, "").

End os_path.

(** [s.replace(a, b)] for single characters. *)
Fixpoint replace_char (a b : ascii) (s : string) : string :=
  match s with
  | EmptyString => EmptyString
  | String c r => String (if Ascii.eqb c a then b else c) (replace_char a b r)
  end.

(** ** [urllib.parse.quote] with its default [safe='/']

    On the bytes of a UTF-8 encoded [str]; the library function raises on a
    [str] that does not encode, and such a [str] is outside the domain. *)

Definition in_range (lo hi c : ascii) : bool :=
  (N.leb (N_of_ascii lo) (N_of_ascii c) && N.leb (N_of_ascii c) (N_of_ascii hi))%bool.

(** Letters, digits and [_.-~] are never quoted. *)
Definition always_safe (c : ascii) : bool :=
  (in_range "A" "Z" c || in_range "a" "z" c || in_range "0" "9" c
   || Ascii.eqb c "_" || Ascii.eqb c "." || Ascii.eqb c "-" || Ascii.eqb c "~")%bool%char.

Definition hex_digit (n : N) : ascii :=
  if N.ltb n 10 then ascii_of_N (48 + n) else ascii_of_N (55 + n).

Definition quote_byte (c : ascii) : string :=
  if (always_safe c || Ascii.eqb c "/"%char)%bool then String c ""
  else String "%"%char
         (String (hex_digit (N.div (N_of_ascii c) 16))
            (String (hex_digit (N.modulo (N_of_ascii c) 16)) "")).

Fixpoint quote (s : string) : string :=
  match s with
  | EmptyString => EmptyString
  | String c r => quote_byte c ++ quote r
  end.

(** ** The rendered file size

    [size / 1024] and [size / (1024 * 1024)] are true divisions: the result
    is the binary64 number nearest to the quotient. The divisor is a power
    of two, so that number is [to_binary64 size] scaled by the power, and a
    result is represented by its numerator over that power of two. *)

(** The integer nearest to [n / d] for [0 < d], ties to the even one. *)
Definition round_half_even (n d : Z) : Z :=
  let q := n / d in
  let r := n mod d in
  if 2 * r <? d then q
  else if d <? 2 * r then q + 1
  else if Z.even q then q else q + 1.

(** The binary64 number nearest to the integer [0 <= n]: [n] itself while
    it fits in 53 bits, otherwise [n] rounded to 53 significant bits. *)
Definition to_binary64 (n : Z) : Z :=
  let sh := Z.log2 n - 52 in
  if sh <=? 0 then n else round_half_even n (2 ^ sh) * 2 ^ sh.

Definition digit (d : Z) : ascii := ascii_of_N (48 + Z.to_N d).

Definition str_of_int (z : Z) : string :=
  NilZero.string_of_uint (N.to_uint (Z.to_N z)).

(** The text of [c] hundredths with two decimals. *)
Definition two_decimals (c : Z) : string :=
  str_of_int (c / 100) ++ "." ++ String (digit ((c / 10) mod 10)) (String (digit (c mod 10)) "").

(** [f"{x:.2f}"] for the binary64 number [x = m / 2 ^ k]: the exact value
    rounded to hundredths, ties to even. *)
Definition format_2f (m k : Z) : string :=
  two_decimals (round_half_even (100 * m) (2 ^ k)).

(** Lines 59-61 and 71: the label, the division and the rendering. *)
Definition size_label (size : Z) : string :=
  if size <? 1024 * 1024 then "KB" else "MB".

Definition file_size (size : Z) : string :=
  let size_label := size_label size in
  let k := if String.eqb size_label "KB" then 10 else 20 in
  format_2f (to_binary64 size) k ++ " " ++ size_label.

(** ** The module-level state and the effects of the operations *)

Record globals : Type := mkGlobals {
  categories : list item;
  storage_data : list item;
  id_counter : Z;
  category_id_counter : Z
}.

(** The state of the module when it is loaded (lines 20-23). *)
Definition initial : globals :=
  {| categories := []; storage_data := []; id_counter := 1; category_id_counter := 1 |}.

Inductive exn : Type :=
| OSError.

Inductive outcome (A : Type) : Type :=
| Ok (a : A)
| Raise (e : exn).
Arguments Ok {A} a.
Arguments Raise {A} e.

(** A computation reads and writes the module-level state and either
    returns or raises; the state it leaves is kept in both cases. *)
Definition M (A : Type) : Type := globals -> outcome A * globals.

Definition ret {A : Type} (a : A) : M A := fun g => (Ok a, g).

Definition raise {A : Type} (e : exn) : M A := fun g => (Raise e, g).

Definition bind {A B : Type} (m : M A) (k : A -> M B) : M B :=
  fun g =>
    match m g with
    | (Ok a, g') => k a g'
    | (Raise e, g') => (Raise e, g')
    end.

Notation "x <- m ;; k" := (bind m (fun x => k))
  (at level 61, m at next level, right associativity).
Notation "m ;;; k" := (bind m (fun _ => k))
  (at level 61, right associativity).

(** [try: body except Exception as e: handler]. *)
Definition try_except (body : M unit) (handler : exn -> M unit) : M unit :=
  fun g =>
    match body g with
    | (Ok tt, g') => (Ok tt, g')
    | (Raise e, g') => handler e g'
    end.

Definition read_id_counter : M Z := fun g => (Ok (id_counter g), g).
Definition read_category_id_counter : M Z := fun g => (Ok (category_id_counter g), g).

Definition set_id_counter (z : Z) : M unit :=
  fun g => (Ok tt, {| categories := categories g; storage_data := storage_data g;
                      id_counter := z; category_id_counter := category_id_counter g |}).

Definition set_category_id_counter (z : Z) : M unit :=
  fun g => (Ok tt, {| categories := categories g; storage_data := storage_data g;
                      id_counter := id_counter g; category_id_counter := z |}).

Definition set_categories (l : list item) : M unit :=
  fun g => (Ok tt, {| categories := l; storage_data := storage_data g;
                      id_counter := id_counter g; category_id_counter := category_id_counter g |}).

Definition set_storage_data (l : list item) : M unit :=
  fun g => (Ok tt, {| categories := categories g; storage_data := l;
                      id_counter := id_counter g; category_id_counter := category_id_counter g |}).

(** [print(...)]: standard output is not part of the state. *)
Definition print : M unit := ret tt.

(** A [for] loop whose body appends to the list it builds: the items the
    iterations append, in order. An iteration that raises ends the loop. *)
Fixpoint for_each {A : Type} (body : A -> M (list item)) (l : list A) : M (list item) :=
  match l with
  | [] => ret []
  | a :: rest =>
      appended <- body a ;;
      result <- for_each body rest ;;
      ret (appended ++ result)%list
  end.

(** [for entry in os.scandir(path): body]: [os.scandir] raises on a
    directory that cannot be listed, before any iteration. *)
Definition for_scandir (path : option (list fsentry)) (body : fsentry -> M (list item))
  : M (list item) :=
  match path with
  | Some entries => for_each body entries
  | None => raise OSError
  end.

(** [os.listdir(path)]. *)
Definition os_listdir (d : option (list fsentry)) : M (list string) :=
  match d with
  | Some entries => ret (map entry_name entries)
  | None => raise OSError
  end.

Definition entry_stat (st : option stat_result) : M stat_result :=
  match st with
  | Some s => ret s
  | None => raise OSError
  end.

(** [os.path.isdir(os.path.join(STORAGE_DIR, name))]: the entry of that
    name exists and is a directory; it never raises. *)
Definition os_path_isdir (d : option (list fsentry)) (name : string) : bool :=
  match d with
  | Some entries =>
      match find (fun e => String.eqb (entry_name e) name) entries with
      | Some e => is_dir e
      | None => false
      end
  | None => false
  end.

(** ** [scan_directory] (lines 38-77) *)

Section Scan.

(** [time.strftime('%d.%m.%Y', time.localtime(t))]: it depends on the time
    zone of the process. *)
Variable strftime_dmY : Z -> string.

(** One iteration of the loop of line 41, for the entry [e]; the recursive
    call of line 54 scans the listing of the directory [e]. *)
Fixpoint scan_entry (is_root : bool) (parent_category_id : scalar)
    (relative_path : string) (e : fsentry) {struct e} : M (list item) :=
  let entry_relative_path := os_path.join relative_path (entry_name e) in
  match e with
  | FsDir name listing =>
      category_id <- (if is_root
                      then c <- read_category_id_counter ;; ret (PyInt c)
                      else ret parent_category_id) ;;
      i <- read_id_counter ;;
      let fields :=
        [("id", PyInt i);
         ("name", PyStr name);
         ("type", PyStr (if is_root then "Category" else "folder"));
         ("idCategory", category_id)] in
      set_id_counter (i + 1) ;;;
      (if is_root
       then c <- read_category_id_counter ;; set_category_id_counter (c + 1)
       else ret tt) ;;;
      children <- for_scandir listing
                    (scan_entry false category_id entry_relative_path) ;;
      ret [Dict fields (Some children)]
  | FsFile name st =>
      stats <- entry_stat st ;;
      let creation_date := strftime_dmY (st_ctime stats) in
      let fileSize := file_size (st_size stats) in
      let (file_name, file_extension) := os_path.splitext name in
      let file_format :=
        match file_extension with
        | String _ rest => rest
        | EmptyString => "unknown"
        end in
      let file_url :=
        BASE_URL ++ "/files/storage/"
          ++ quote (replace_char os_path.sep "/" entry_relative_path) in
      i <- read_id_counter ;;
      let fields :=
        [("id", PyInt i);
         ("name", PyStr file_name);
         ("type", PyStr "file");
         ("fileDate", PyStr creation_date);
         ("fileType", PyStr file_format);
         ("fileSize", PyStr fileSize);
         ("filepath", PyStr file_url);
         ("categoryId", parent_category_id)] in
      set_id_counter (i + 1) ;;;
      ret [Dict fields None]
  | FsOther _ => ret []
  end.

Definition scan_directory (path : option (list fsentry)) (is_root : bool)
    (parent_category_id : scalar) (relative_path : string) : M (list item) :=
  for_scandir path (scan_entry is_root parent_category_id relative_path).

(** ** The refresh operations (lines 80-98) *)

Definition enumerate_from {A : Type} (start : Z) (l : list A) : list (Z * A) :=
  combine (map Z.of_nat (seq (Z.to_nat start) (List.length l))) l.

Definition update_categories (STORAGE_DIR : option (list fsentry)) : M unit :=
  try_except
    (names <- os_listdir STORAGE_DIR ;;
     let folder_names := filter (os_path_isdir STORAGE_DIR) names in
     set_categories
       (map (fun p => Dict [("idCategory", PyInt (fst p + 1)); ("textCategory", PyStr (snd p))] None)
            (enumerate_from 0 folder_names)) ;;;
     print)
    (fun e => print).

Definition update_storage_data (STORAGE_DIR : option (list fsentry)) : M unit :=
  set_id_counter 1 ;;;
  set_category_id_counter 1 ;;;
  try_except
    (tree <- scan_directory STORAGE_DIR true PyNone "" ;;
     set_storage_data tree ;;;
     print)
    (fun e => print).

End Scan.

(** ** The read handlers (lines 25-36 and 151-163) *)

(** A [for] loop whose body may return: the first value returned. *)
Fixpoint first_return {A B : Type} (body : A -> option B) (l : list A) : option B :=
  match l with
  | [] => None
  | a :: rest =>
      match body a with
      | Some b => Some b
      | None => first_return body rest
      end
  end.

(** One iteration of the loop of line 29 for [it]: [Some] is the value the
    function returns from inside the loop, [None] lets the loop go on. *)
Fixpoint find_category_step (category_id : Z) (it : item) {struct it} : option item :=
  match it with
  | Dict fields children =>
      if match assoc "idCategory" fields with
         | Some v => py_eq_int v category_id
         | None => false
         end
      then Some it
      else
        match children with
        | Some l =>
            match first_return (find_category_step category_id) l with
            | Some found => if truthy found then Some found else None
            | None => None
            end
        | None => None
        end
  end.

(** [find_category(data, category_id)] for a list [data]. *)
Definition find_category (data : list item) (category_id : Z) : option item :=
  first_return (find_category_step category_id) data.

(** [find_category] for a dictionary [data]: lines 27-28 wrap it in a list. *)
Definition find_category_dict (data : item) (category_id : Z) : option item :=
  find_category [data] category_id.

(** What [jsonify] is given: a list of dictionaries or one dictionary. *)
Inductive json : Type :=
| JArray (l : list item)
| JObject (d : item).

Definition get_categories (g : globals) : json := JArray (categories g).

(** [request.args.get('idCategory', type=int)] is [None] for a missing or
    malformed parameter. *)
Definition get_storage (category_id : option Z) (g : globals) : json :=
  match category_id with
  | None => JArray (storage_data g)
  | Some cid =>
      match find_category (storage_data g) cid with
      | Some d => JObject d
      | None => JObject (Dict [("error", PyStr "Category not found")] None)
      end
  end.

(** The state after running an operation that cannot raise. *)
Definition run (m : M unit) (g : globals) : globals := snd (m g).

(** ** Traversals and predicates used to state the properties *)

(** The nodes of a tree in depth-first order: a node, then the nodes below
    its first child, then those below the next one. *)
Fixpoint preorder_item (it : item) : list item :=
  match it with
  | Dict _ children =>
      it :: match children with
            | Some l => flat_map preorder_item l
            | None => []
            end
  end.

Definition preorder (l : list item) : list item := flat_map preorder_item l.

(** The directory entries in the order one walk discovers them: an entry,
    then the entries of its listing, then its next sibling. Entries that are
    neither directories nor files are passed over. *)
Fixpoint discovered_entry (e : fsentry) : list fsentry :=
  match e with
  | FsDir _ listing =>
      e :: match listing with
           | Some l => flat_map discovered_entry l
           | None => []
           end
  | FsFile _ _ => [e]
  | FsOther _ => []
  end.

Definition discovered (l : list fsentry) : list fsentry := flat_map discovered_entry l.

(** Every directory of the tree can be listed and every file examined. *)
Fixpoint readable_entry (e : fsentry) : bool :=
  match e with
  | FsDir _ (Some l) => forallb readable_entry l
  | FsDir _ None => false
  | FsFile _ (Some _) => true
  | FsFile _ None => false
  | FsOther _ => true
  end.

Definition readable (l : list fsentry) : bool := forallb readable_entry l.

Definition readable_root (root : option (list fsentry)) : bool :=
  match root with
  | Some l => readable l
  | None => false
  end.

(** The test of line 30. *)
Definition matches (category_id : Z) (it : item) : bool :=
  match get "idCategory" it with
  | Some v => py_eq_int v category_id
  | None => false
  end.

Definition has_type (t : string) (it : item) : bool :=
  match get "type" it with
  | Some (PyStr s) => String.eqb s t
  | _ => false
  end.

(** The state with other counters. *)
Definition with_counters (g : globals) (i c : Z) : globals :=
  {| categories := categories g; storage_data := storage_data g;
     id_counter := i; category_id_counter := c |}.

(** The two dictionaries of lines 45-50 and 65-74. *)
Definition dir_node (is_root : bool) (name : string) (i : Z) (category_id : scalar)
    (children : list item) : item :=
  Dict [("id", PyInt i); ("name", PyStr name);
        ("type", PyStr (if is_root then "Category" else "folder"));
        ("idCategory", category_id)] (Some children).

Definition file_url (entry_relative_path : string) : string :=
  BASE_URL ++ "/files/storage/" ++ quote (replace_char os_path.sep "/" entry_relative_path).

Definition file_type (name : string) : string :=
  match snd (os_path.splitext name) with
  | String _ rest => rest
  | EmptyString => "unknown"
  end.

Definition file_node (date : string) (parent_category_id : scalar) (relative_path : string)
    (name : string) (st : stat_result) (i : Z) : item :=
  Dict [("id", PyInt i); ("name", PyStr (fst (os_path.splitext name)));
        ("type", PyStr "file"); ("fileDate", PyStr date);
        ("fileType", PyStr (file_type name));
        ("fileSize", PyStr (file_size (st_size st)));
        ("filepath", PyStr (file_url (os_path.join relative_path name)));
        ("categoryId", parent_category_id)] None.

(** The name a node carries for a directory entry (line 47 and line 67). *)
Definition node_name (e : fsentry) : string :=
  match e with
  | FsDir n _ => n
  | FsFile n _ => fst (os_path.splitext n)
  | FsOther n => n
  end.

(** The integer under the key ['id'], for stating order. *)
Definition node_id (it : item) : Z :=
  match get "id" it with
  | Some (PyInt z) => z
  | _ => 0
  end.

(** [i, i + 1, ...], [n] numbers. *)
Fixpoint count_from (i : Z) (n : nat) : list Z :=
  match n with
  | O => []
  | S n' => i :: count_from (i + 1) n'
  end.

Definition scalar_eqb (a b : scalar) : bool :=
  match a, b with
  | PyNone, PyNone => true
  | PyInt x, PyInt y => Z.eqb x y
  | PyStr x, PyStr y => String.eqb x y
  | _, _ => false
  end.

(** The value [v] a node carries as its category is the one inherited from
    the nearest Category ancestor [anc]: the value under [anc_key] of that
    ancestor, or nothing ([None] or no key at all) without such an ancestor. *)
Definition inherited (anc_key : string) (anc : option item) (v : option scalar) : bool :=
  match anc with
  | Some c =>
      match get anc_key c, v with
      | Some a, Some b => scalar_eqb a b
      | _, _ => false
      end
  | None =>
      match v with
      | None | Some PyNone => true
      | Some _ => false
      end
  end.

(** Every folder below [it] (its category under [folder_key]) and every file
    (its category under ['categoryId']) carries the [anc_key] of its nearest
    Category ancestor; [anc] is that ancestor for [it] itself. *)
Fixpoint inherits_item (anc_key folder_key : string) (anc : option item) (it : item) : bool :=
  match it with
  | Dict _ children =>
      if has_type "Category" it then
        match children with
        | Some l => forallb (inherits_item anc_key folder_key (Some it)) l
        | None => true
        end
      else if has_type "folder" it then
        inherited anc_key anc (get folder_key it)
        && match children with
           | Some l => forallb (inherits_item anc_key folder_key anc) l
           | None => true
           end
      else if has_type "file" it then
        inherited anc_key anc (get "categoryId" it)
      else true
  end.

(** A name as a directory listing can hold it: not empty, no separator. *)
Fixpoint no_sep (s : string) : bool :=
  match s with
  | EmptyString => true
  | String c r => negb (Ascii.eqb c os_path.sep) && no_sep r
  end.

Definition valid_name (s : string) : bool := negb (String.eqb s "") && no_sep s.

Fixpoint well_named_entry (e : fsentry) : bool :=
  valid_name (entry_name e)
  && match e with
     | FsDir _ (Some l) => forallb well_named_entry l
     | _ => true
     end.

Definition well_named (l : list fsentry) : bool := forallb well_named_entry l.

(** The path of the entry [name] of a directory, relative to the scan root
    and written with forward slashes; [dir] is that path for the directory
    itself, empty for the root. *)
Definition child_path (dir name : string) : string :=
  if String.eqb dir "" then name else dir ++ "/" ++ name.

(** The relative paths of the files of a tree, in the order of discovery. *)
Fixpoint file_paths_entry (dir : string) (e : fsentry) : list string :=
  match e with
  | FsDir n listing =>
      match listing with
      | Some l => flat_map (file_paths_entry (child_path dir n)) l
      | None => []
      end
  | FsFile n _ => [child_path dir n]
  | FsOther _ => []
  end.

Definition file_paths (dir : string) (l : list fsentry) : list string :=
  flat_map (file_paths_entry dir) l.

Definition file_nodes (l : list item) : list item :=
  filter (has_type "file") (preorder l).

(** The names of the directories of a listing, and the Category nodes at
    the top of a tree. *)
Definition dir_names (entries : list fsentry) : list string :=
  map entry_name (filter is_dir entries).

Definition top_categories (items : list item) : list item :=
  filter (has_type "Category") items.

(** The category list [update_categories] publishes for these names. *)
Definition category_entries (names : list string) : list item :=
  map (fun p => Dict [("idCategory", PyInt (Z.of_nat (fst p)));
                      ("textCategory", PyStr (snd p))] None)
      (combine (seq 1 (List.length names)) names).

(** ** What one walk produces

    [Scanned r p rel i c entries items i' c']: the loop of [scan_directory]
    over [entries], called with [is_root = r], [parent_category_id = p] and
    [relative_path = rel] while the counters are [i] and [c], returns [items]
    and leaves the counters at [i'] and [c']. *)

Section ScanRelation.

Variable strftime_dmY : Z -> string.

Inductive Scanned : bool -> scalar -> string -> Z -> Z ->
                    list fsentry -> list item -> Z -> Z -> Prop :=
| Scanned_nil (r : bool) (p : scalar) (rel : string) (i c : Z) :
    Scanned r p rel i c [] [] i c
| Scanned_dir (r : bool) (p : scalar) (rel : string) (i c : Z) n sub l ch rest i2 c2 i3 c3 :
    Scanned false (if r then PyInt c else p) (os_path.join rel n)
            (i + 1) (if r then c + 1 else c) sub ch i2 c2 ->
    Scanned r p rel i2 c2 l rest i3 c3 ->
    Scanned r p rel i c (FsDir n (Some sub) :: l)
            (dir_node r n i (if r then PyInt c else p) ch :: rest) i3 c3
| Scanned_file (r : bool) (p : scalar) (rel : string) (i c : Z) n st l rest i3 c3 :
    Scanned r p rel (i + 1) c l rest i3 c3 ->
    Scanned r p rel i c (FsFile n (Some st) :: l)
            (file_node (strftime_dmY (st_ctime st)) p rel n st i :: rest) i3 c3
| Scanned_other (r : bool) (p : scalar) (rel : string) (i c : Z) n l rest i3 c3 :
    Scanned r p rel i c l rest i3 c3 ->
    Scanned r p rel i c (FsOther n :: l) rest i3 c3.

End ScanRelation.

(** The published values are not touched by a walk. *)
Definition frame (g g' : globals) : Prop :=
  categories g' = categories g /\ storage_data g' = storage_data g.

(** What a reader gets from the two handlers at one moment. *)
Definition observed (g : globals) : list item * list item :=
  (storage_data g, categories g).

(** ** Instances used to illustrate the properties *)

(** A date rendering for the instances below (every file there was created
    at the epoch, in UTC). *)
Definition example_date (t : Z) : string := "01.01.1970".

(** A root with two directories, a file and a socket: [Docs] holds
    [report.pdf] of 2,000,000 bytes and the directory [Drafts] with
    [v1.txt]; [B] holds one file. *)
Definition example_root : list fsentry :=
  [FsDir "Docs" (Some [FsFile "report.pdf" (Some (mkStat 0 2000000));
                       FsDir "Drafts" (Some [FsFile "v1.txt" (Some (mkStat 0 10))])]);
   FsFile "top.txt" (Some (mkStat 0 128));
   FsOther "sock";
   FsDir "B" (Some [FsFile "y z" (Some (mkStat 0 1048576))])].

(** The state once both refresh operations have run over it, in the order
    of lines 186-187. *)
Definition example_state : globals :=
  run (update_storage_data example_date (Some example_root))
      (run (update_categories (Some example_root)) initial).

Definition example_tree : list item := storage_data example_state.

(** The node of the folder [Drafts]. *)
Definition example_folder : item :=
  Eval vm_compute in nth 2 (preorder example_tree) (Dict [] None).

(** The same root after an empty directory [New] appeared, and the same
    when the content of [New] cannot be listed. *)
Definition grown_root : list fsentry :=
  (example_root ++ [FsDir "New" (Some [])])%list.

Definition changed_root : list fsentry :=
  (example_root ++ [FsDir "New" None])%list.

(** ** Further predicates *)

(** A tree without the entries that are neither directories nor files, at
    every depth. *)
Fixpoint prune_entry (e : fsentry) : list fsentry :=
  match e with
  | FsDir n listing =>
      [FsDir n match listing with
               | Some l => Some (flat_map prune_entry l)
               | None => None
               end]
  | FsFile _ _ => [e]
  | FsOther _ => []
  end.

Definition prune (l : list fsentry) : list fsentry := flat_map prune_entry l.

(** The type a node may have at its depth: a file without children, or a
    directory with children, a Category at the top ([top = true]) and a
    folder below. *)
Fixpoint typed_at_depth (top : bool) (it : item) : bool :=
  match it with
  | Dict _ children =>
      match children with
      | Some l =>
          has_type (if top then "Category" else "folder") it
          && forallb (typed_at_depth false) l
      | None => has_type "file" it
      end
  end.

(** A node below the Category [k]: a folder carrying [k] under
    ['idCategory'] or a file carrying [k] under ['categoryId']. *)
Definition tagged (k : Z) (it : item) : bool :=
  (has_type "folder" it && match get "idCategory" it with
                           | Some v => py_eq_int v k
                           | None => false
                           end)
  || (has_type "file" it && match get "categoryId" it with
                            | Some v => py_eq_int v k
                            | None => false
                            end).

(** The object [get_storage] answers with when nothing is found. *)
Definition not_found : json :=
  JObject (Dict [("error", PyStr "Category not found")] None).

(** Every character of a string passes a test; a character occurs in a
    string. *)
Fixpoint string_forall (f : ascii -> bool) (s : string) : bool :=
  match s with
  | EmptyString => true
  | String c r => f c && string_forall f r
  end.

Fixpoint has_char (c : ascii) (s : string) : bool :=
  match s with
  | EmptyString => false
  | String a r => Ascii.eqb a c || has_char c r
  end.

(** A string made of dots only, the empty one included. *)
Definition all_dots (s : string) : bool :=
  string_forall (fun c => Ascii.eqb c "."%char) s.

(** The characters a quoted path is made of: the unreserved ones, the
    slash and the percent sign. *)
Definition url_char (c : ascii) : bool :=
  (always_safe c || Ascii.eqb c "/" || Ascii.eqb c "%")%bool%char.

(** ** Accounts (lines 112-149, with the table of lines 172-181)

    The body of a request is a JSON object whose values are strings or
    [null]: [request.get_json()] is a dictionary from keys to [Some s] or
    [None]. The table [users] is the list of its rows in the order of
    their insertion; it is the state the two handlers thread, as the
    connection of [get_db] and the [commit] make it. *)

Record user : Type := mkUser {
  user_id : Z;
  user_login : string;
  user_password : string;
  user_name : string;
  user_surname : string;
  user_post : option string;
  user_token : string
}.

(** What a handler answers: the status and the fields of the JSON object. *)
Record response : Type := mkResponse {
  status : Z;
  body : list (string * scalar)
}.

(** An exception no handler catches. *)
Inductive failure : Type :=
| KeyError
| TypeError
| AttributeError.

Inductive result (A : Type) : Type :=
| Returned (a : A)
| Raised (e : failure).
Arguments Returned {A} a.
Arguments Raised {A} e.

(** [d.get(k)] on a request body: [None] for a missing key, [Some None]
    for a key whose value is [null]. *)
Fixpoint lookup (k : string) (d : list (string * option string)) : option (option string) :=
  match d with
  | [] => None
  | (k', v) :: rest => if String.eqb k k' then Some v else lookup k rest
  end.

Definition has_key (k : string) (d : list (string * option string)) : bool :=
  match lookup k d with Some _ => true | None => false end.

(** The identifier [AUTOINCREMENT] gives the next row: one more than the
    largest one in the table. *)
Definition next_id (db : list user) : Z :=
  1 + fold_right (fun u m => Z.max (user_id u) m) 0 db.

(** [SELECT * FROM users WHERE login = ?] and [fetchone()]; a [NULL]
    parameter equals no login. *)
Definition select_by_login (db : list user) (login : option string) : option user :=
  match login with
  | Some l => find (fun u => String.eqb (user_login u) l) db
  | None => None
  end.

Definition scalar_of_option (v : option string) : scalar :=
  match v with
  | Some s => PyStr s
  | None => PyNone
  end.

Section Accounts.

(** [generate_password_hash(password)], the salt it draws being an input,
    and [check_password_hash(pwhash, password)], which may raise on a
    password that is not a string. *)
Variable generate_password_hash : string -> string -> string.
Variable check_password_hash : string -> option string -> result bool.

(** [register] (lines 112-134); [salt_token] and [salt_password] are the
    salts of the two calls of [generate_password_hash], in that order. *)
Definition register (data : list (string * option string))
    (salt_token salt_password : string) (db : list user)
  : result response * list user :=
  let required_fields := ["login"; "password"; "name"; "surname"] in
  if negb (forallb (fun field => has_key field data) required_fields) then
    (Returned (mkResponse 400 [("msg", PyStr "Missing required fields")]), db)
  else
    match lookup "login" data, lookup "password" data,
          lookup "name" data, lookup "surname" data with
    | Some login, Some password, Some name, Some surname =>
        let post := match lookup "post" data with
                    | Some v => v
                    | None => None
                    end in
        (* [login + password + name + surname] raises [TypeError] as soon
           as one of the four is [None]. *)
        match login, password, name, surname with
        | Some login, Some password, Some name, Some surname =>
            let token :=
              generate_password_hash salt_token (login ++ password ++ name ++ surname) in
            let hashed_password := generate_password_hash salt_password password in
            if existsb (fun u => String.eqb (user_login u) login) db then
              (Returned (mkResponse 409
                           [("msg", PyStr "User with this login already exists")]),
               db)
            else
              (Returned (mkResponse 201
                           [("msg", PyStr "User registered successfully");
                            ("token", PyStr token)]),
               db ++ [mkUser (next_id db) login hashed_password name surname
                             post token])%list
        | _, _, _, _ => (Raised TypeError, db)
        end
    | _, _, _, _ => (Raised KeyError, db)
    end.

(** [login] (lines 136-149). *)
Definition login (data : list (string * option string)) (db : list user)
  : result response :=
  match lookup "login" data with
  | None => Raised KeyError
  | Some login =>
      match lookup "password" data with
      | None => Raised KeyError
      | Some password =>
          let denied :=
            Returned (mkResponse 401 [("msg", PyStr "Bad username or password")]) in
          match select_by_login db login with
          | None => denied
          | Some u =>
              match check_password_hash (user_password u) password with
              | Raised e => Raised e
              | Returned true =>
                  Returned (mkResponse 200
                              [("id", PyInt (user_id u));
                               ("login", PyStr (user_login u));
                               ("name", PyStr (user_name u));
                               ("surname", PyStr (user_surname u));
                               ("post", scalar_of_option (user_post u));
                               ("token", PyStr (user_token u))])
              | Returned false => denied
              end
          end
      end
  end.

End Accounts.



(** ** The assignments of an operation, in order

    A request served while a refresh runs reads a module-level variable
    between two steps of the refresh, and what it reads changes only when
    the refresh assigns a module-level variable. [T] is [M] together with
    the states right after each assignment the computation made, in the
    order it made them: with the state before, these are all the states a
    reader can meet. The operations are written again in [T], statement
    by statement as in [M]; [quiet] marks the steps that assign no
    module-level variable and [assigning] the assignments. *)

Definition T (A : Type) : Type := globals -> (outcome A * globals) * list globals.

Definition quiet {A : Type} (m : M A) : T A := fun g => (m g, []).

Definition assigning (m : M unit) : T unit := fun g => (m g, [snd (m g)]).

Definition tbind {A B : Type} (m : T A) (k : A -> T B) : T B :=
  fun g =>
    match m g with
    | ((Ok a, g'), seen) =>
        match k a g' with
        | (r, seen') => (r, (seen ++ seen')%list)
        end
    | ((Raise e, g'), seen) => ((Raise e, g'), seen)
    end.

Notation "x <~ m ;; k" := (tbind m (fun x => k))
  (at level 61, m at next level, right associativity).
Notation "m ;;~ k" := (tbind m (fun _ => k))
  (at level 61, right associativity).

Definition try_except_traced (body : T unit) (handler : exn -> T unit) : T unit :=
  fun g =>
    match body g with
    | ((Ok tt, g'), seen) => ((Ok tt, g'), seen)
    | ((Raise e, g'), seen) =>
        match handler e g' with
        | (r, seen') => (r, (seen ++ seen')%list)
        end
    end.

Fixpoint for_each_traced {A : Type} (body : A -> T (list item)) (l : list A)
  : T (list item) :=
  match l with
  | [] => quiet (ret [])
  | a :: rest =>
      appended <~ body a ;;
      result <~ for_each_traced body rest ;;
      quiet (ret (appended ++ result)%list)
  end.

Definition for_scandir_traced (path : option (list fsentry))
    (body : fsentry -> T (list item)) : T (list item) :=
  match path with
  | Some entries => for_each_traced body entries
  | None => quiet (raise OSError)
  end.

Section Traced.

Variable strftime_dmY : Z -> string.

(** [scan_entry] with its assignments: lines 51 and 53 assign the two
    counters, line 75 the first of them; the lists and dictionaries being
    built are local. *)
Fixpoint scan_entry_traced (is_root : bool) (parent_category_id : scalar)
    (relative_path : string) (e : fsentry) {struct e} : T (list item) :=
  let entry_relative_path := os_path.join relative_path (entry_name e) in
  match e with
  | FsDir name listing =>
      category_id <~ quiet (if is_root
                            then c <- read_category_id_counter ;; ret (PyInt c)
                            else ret parent_category_id) ;;
      i <~ quiet read_id_counter ;;
      let fields :=
        [("id", PyInt i);
         ("name", PyStr name);
         ("type", PyStr (if is_root then "Category" else "folder"));
         ("idCategory", category_id)] in
      assigning (set_id_counter (i + 1)) ;;~
      (if is_root
       then c <~ quiet read_category_id_counter ;;
            assigning (set_category_id_counter (c + 1))
       else quiet (ret tt)) ;;~
      children <~ for_scandir_traced listing
                    (scan_entry_traced false category_id entry_relative_path) ;;
      quiet (ret [Dict fields (Some children)])
  | FsFile name st =>
      stats <~ quiet (entry_stat st) ;;
      let creation_date := strftime_dmY (st_ctime stats) in
      let fileSize := file_size (st_size stats) in
      let (file_name, file_extension) := os_path.splitext name in
      let file_format :=
        match file_extension with
        | String _ rest => rest
        | EmptyString => "unknown"
        end in
      let file_url :=
        BASE_URL ++ "/files/storage/"
          ++ quote (replace_char os_path.sep "/" entry_relative_path) in
      i <~ quiet read_id_counter ;;
      let fields :=
        [("id", PyInt i);
         ("name", PyStr file_name);
         ("type", PyStr "file");
         ("fileDate", PyStr creation_date);
         ("fileType", PyStr file_format);
         ("fileSize", PyStr fileSize);
         ("filepath", PyStr file_url);
         ("categoryId", parent_category_id)] in
      assigning (set_id_counter (i + 1)) ;;~
      quiet (ret [Dict fields None])
  | FsOther _ => quiet (ret [])
  end.

Definition scan_directory_traced (path : option (list fsentry)) (is_root : bool)
    (parent_category_id : scalar) (relative_path : string) : T (list item) :=
  for_scandir_traced path (scan_entry_traced is_root parent_category_id relative_path).

(** [update_categories] with its one assignment, line 85. *)
Definition update_categories_traced (STORAGE_DIR : option (list fsentry)) : T unit :=
  try_except_traced
    (names <~ quiet (os_listdir STORAGE_DIR) ;;
     let folder_names := filter (os_path_isdir STORAGE_DIR) names in
     assigning
       (set_categories
          (map (fun p => Dict [("idCategory", PyInt (fst p + 1));
                               ("textCategory", PyStr (snd p))] None)
               (enumerate_from 0 folder_names))) ;;~
     quiet print)
    (fun e => quiet print).

(** [update_storage_data] with its assignments: the two counters at line
    93, those of the walk, and [storage_data] at line 95, once the walk has
    returned the whole tree. *)
Definition update_storage_data_traced (STORAGE_DIR : option (list fsentry)) : T unit :=
  assigning (set_id_counter 1) ;;~
  assigning (set_category_id_counter 1) ;;~
  try_except_traced
    (tree <~ scan_directory_traced STORAGE_DIR true PyNone "" ;;
     assigning (set_storage_data tree) ;;~
     quiet print)
    (fun e => quiet print).

End Traced.

(** * Auxiliary results *)

(** ** Induction over forests *)

Lemma listing_ind (P : list fsentry -> Prop) :
  P [] ->
  (forall n sub l, P sub -> P l -> P (FsDir n (Some sub) :: l)) ->
  (forall n l, P l -> P (FsDir n None :: l)) ->
  (forall n st l, P l -> P (FsFile n st :: l)) ->
  (forall n l, P l -> P (FsOther n :: l)) ->
  forall l, P l.
Proof.
  intros Hnil Hdir Hbad Hfile Hother.
  assert (Hcons : forall e l, P l -> P (e :: l)).
  { fix IH 1.
    intros e l Hl.
    destruct e as [n [sub|] | n st | n].
    - apply Hdir; [ | exact Hl ].
      revert sub. fix IHsub 1.
      intros [|e' sub'].
      + exact Hnil.
      + apply IH. apply IHsub.
    - apply Hbad, Hl.
    - apply Hfile, Hl.
    - apply Hother, Hl. }
  induction l as [|e l IHl].
  - exact Hnil.
  - apply Hcons, IHl.
Qed.

Lemma forest_ind (P : list item -> Prop) :
  P [] ->
  (forall fs ch l, P ch -> P l -> P (Dict fs (Some ch) :: l)) ->
  (forall fs l, P l -> P (Dict fs None :: l)) ->
  forall l, P l.
Proof.
  intros Hnil Hnode Hleaf.
  assert (Hcons : forall it l, P l -> P (it :: l)).
  { fix IH 1.
    intros it l Hl.
    destruct it as [fs [ch|]].
    - apply Hnode; [ | exact Hl ].
      revert ch. fix IHch 1.
      intros [|c ch'].
      + exact Hnil.
      + apply IH. apply IHch.
    - apply Hleaf, Hl. }
  induction l as [|it l IHl].
  - exact Hnil.
  - apply Hcons, IHl.
Qed.

Lemma preorder_cons it l : preorder (it :: l) = (preorder_item it ++ preorder l)%list.
Proof. reflexivity. Qed.

Lemma preorder_node fs ch l :
  preorder (Dict fs (Some ch) :: l) = (Dict fs (Some ch) :: preorder ch ++ preorder l)%list.
Proof. reflexivity. Qed.

Lemma preorder_leaf fs l :
  preorder (Dict fs None :: l) = Dict fs None :: preorder l.
Proof. reflexivity. Qed.

(** ** [find_category] is a first-match search in depth-first order *)

Section Lookup.

Variable category_id : Z.

Lemma find_over_app {A : Type} (f : A -> bool) (l1 l2 : list A) :
  find f (l1 ++ l2) =
  match find f l1 with
  | Some x => Some x
  | None => find f l2
  end.
Proof.
  induction l1 as [|a l1 IH]; [ reflexivity | ].
  cbn. destruct (f a); [ reflexivity | exact IH ].
Qed.

(** A dictionary that passes the test of line 30 has a key, so the test
    [if found] of line 34 never discards it. *)
Lemma matches_truthy it : matches category_id it = true -> truthy it = true.
Proof.
  destruct it as [[|kv fs] [ch|]]; try reflexivity.
  unfold matches, get; cbn. discriminate.
Qed.

Lemma find_category_step_node fs ch :
  find_category_step category_id (Dict fs (Some ch)) =
  if matches category_id (Dict fs (Some ch)) then Some (Dict fs (Some ch))
  else match first_return (find_category_step category_id) ch with
       | Some found => if truthy found then Some found else None
       | None => None
       end.
Proof. reflexivity. Qed.

Lemma find_category_step_leaf fs :
  find_category_step category_id (Dict fs None) =
  if matches category_id (Dict fs None) then Some (Dict fs None) else None.
Proof. reflexivity. Qed.

Lemma first_return_cons {A B : Type} (body : A -> option B) a l :
  first_return body (a :: l) =
  match body a with
  | Some b => Some b
  | None => first_return body l
  end.
Proof. reflexivity. Qed.

Lemma find_category_preorder data :
  find_category data category_id = find (matches category_id) (preorder data).
Proof.
  unfold find_category.
  induction data as [| fs ch l IHch IHl | fs l IHl] using forest_ind.
  - reflexivity.
  - rewrite first_return_cons, find_category_step_node, preorder_node.
    cbn [find].
    destruct (matches category_id (Dict fs (Some ch))); [ reflexivity | ].
    rewrite find_over_app, IHch.
    destruct (find (matches category_id) (preorder ch)) as [found|] eqn:Ef.
    + apply find_some in Ef. destruct Ef as [_ Hm].
      rewrite (matches_truthy found Hm). reflexivity.
    + exact IHl.
  - rewrite first_return_cons, find_category_step_leaf, preorder_leaf.
    cbn [find].
    destruct (matches category_id (Dict fs None)); [ reflexivity | exact IHl ].
Qed.

End Lookup.

(** ** The walk of the embedding and the relation [Scanned] *)

Section Walk.

Variable strftime_dmY : Z -> string.

Lemma for_each_cons {A : Type} (body : A -> M (list item)) a l g :
  for_each body (a :: l) g =
  match body a g with
  | (Ok x, g1) =>
      match for_each body l g1 with
      | (Ok rest, g2) => (Ok (x ++ rest)%list, g2)
      | (Raise e, g2) => (Raise e, g2)
      end
  | (Raise e, g1) => (Raise e, g1)
  end.
Proof.
  cbn [for_each]. unfold bind.
  destruct (body a g) as [[x|e] g1]; [ | reflexivity ].
  destruct (for_each body l g1) as [[rest|e] g2]; reflexivity.
Qed.

Abbreviation loop r p rel := (for_each (scan_entry strftime_dmY r p rel)).

Lemma scan_entry_dir r p rel n sub g :
  scan_entry strftime_dmY r p rel (FsDir n (Some sub)) g =
  match loop false (if r then PyInt (category_id_counter g) else p) (os_path.join rel n) sub
          (with_counters g (id_counter g + 1)
             (if r then category_id_counter g + 1 else category_id_counter g)) with
  | (Ok ch, g2) =>
      (Ok [dir_node r n (id_counter g)
             (if r then PyInt (category_id_counter g) else p) ch], g2)
  | (Raise e, g2) => (Raise e, g2)
  end.
Proof.
  destruct g as [cs sd i c].
  destruct r; cbn [scan_entry entry_name for_scandir]; unfold bind, with_counters;
    cbn [read_category_id_counter read_id_counter set_id_counter set_category_id_counter
         ret categories storage_data id_counter category_id_counter];
    match goal with
    | |- context [for_each ?b sub ?g0] => destruct (for_each b sub g0) as [[ch|e] g2]
    end; reflexivity.
Qed.

Lemma loop_dir r p rel n sub l g :
  loop r p rel (FsDir n (Some sub) :: l) g =
  match loop false (if r then PyInt (category_id_counter g) else p) (os_path.join rel n) sub
          (with_counters g (id_counter g + 1)
             (if r then category_id_counter g + 1 else category_id_counter g)) with
  | (Ok ch, g2) =>
      match loop r p rel l g2 with
      | (Ok rest, g3) =>
          (Ok (dir_node r n (id_counter g)
                 (if r then PyInt (category_id_counter g) else p) ch :: rest), g3)
      | (Raise e, g3) => (Raise e, g3)
      end
  | (Raise e, g2) => (Raise e, g2)
  end.
Proof.
  rewrite for_each_cons, scan_entry_dir.
  destruct (for_each _ sub _) as [[ch|e] g2]; reflexivity.
Qed.

Lemma loop_unlistable r p rel n l g :
  exists g', loop r p rel (FsDir n None :: l) g = (Raise OSError, g')
             /\ categories g' = categories g /\ storage_data g' = storage_data g.
Proof.
  destruct g as [cs sd i c].
  destruct r; cbn; unfold bind; cbn; eexists; split; try reflexivity; split; reflexivity.
Qed.

Lemma loop_file r p rel n st l g :
  loop r p rel (FsFile n (Some st) :: l) g =
  match loop r p rel l (with_counters g (id_counter g + 1) (category_id_counter g)) with
  | (Ok rest, g3) =>
      (Ok (file_node (strftime_dmY (st_ctime st)) p rel n st (id_counter g) :: rest), g3)
  | (Raise e, g3) => (Raise e, g3)
  end.
Proof.
  destruct g as [cs sd i c].
  cbn. unfold bind, file_node, file_type, file_url, with_counters; cbn.
  destruct (os_path.splitext n) as [fname fext]; cbn.
  destruct (loop r p rel l _) as [[?|?] ?]; reflexivity.
Qed.

Lemma loop_unstatable r p rel n l g :
  loop r p rel (FsFile n None :: l) g = (Raise OSError, g).
Proof. reflexivity. Qed.

Lemma loop_other r p rel n l g :
  loop r p rel (FsOther n :: l) g = loop r p rel l g.
Proof.
  cbn. unfold bind; cbn.
  destruct (loop r p rel l g) as [[?|?] ?]; reflexivity.
Qed.

Lemma frame_refl g : frame g g.
Proof. split; reflexivity. Qed.

Lemma frame_trans g1 g2 g3 : frame g1 g2 -> frame g2 g3 -> frame g1 g3.
Proof. unfold frame; intros [? ?] [? ?]; split; congruence. Qed.

Lemma frame_with_counters g i c : frame g (with_counters g i c).
Proof. split; reflexivity. Qed.

(** The loop of the embedding returns exactly on readable listings, and
    what it returns is described by [Scanned]. *)
Lemma loop_spec : forall entries r p rel g,
  match loop r p rel entries g with
  | (Ok items, g') =>
      readable entries = true
      /\ Scanned strftime_dmY r p rel (id_counter g) (category_id_counter g) entries items
                 (id_counter g') (category_id_counter g')
      /\ frame g g'
  | (Raise e, g') => readable entries = false /\ frame g g'
  end.
Proof.
  induction entries as [| n sub l IHsub IHl | n l IHl | n st l IHl | n l IHl]
    using listing_ind; intros r p rel g.
  - cbn. repeat split. constructor.
  - rewrite loop_dir.
    specialize (IHsub false (if r then PyInt (category_id_counter g) else p)
                  (os_path.join rel n)
                  (with_counters g (id_counter g + 1)
                     (if r then category_id_counter g + 1 else category_id_counter g))).
    destruct (for_each _ sub _) as [[ch|e] g2].
    + destruct IHsub as (Hr1 & Hs1 & Hf1).
      specialize (IHl r p rel g2).
      destruct (for_each _ l g2) as [[rest|e] g3].
      * destruct IHl as (Hr2 & Hs2 & Hf2).
        split; [ | split ].
        -- change (readable (FsDir n (Some sub) :: l))
             with (readable sub && readable l)%bool.
           rewrite Hr1, Hr2; reflexivity.
        -- econstructor; eassumption.
        -- eapply frame_trans; [ | exact Hf2 ].
           eapply frame_trans; [ apply frame_with_counters | exact Hf1 ].
      * destruct IHl as (Hr2 & Hf2).
        split.
        -- change (readable (FsDir n (Some sub) :: l))
             with (readable sub && readable l)%bool.
           rewrite Hr2. apply andb_false_r.
        -- eapply frame_trans; [ | exact Hf2 ].
           eapply frame_trans; [ apply frame_with_counters | exact Hf1 ].
    + destruct IHsub as (Hr1 & Hf1).
      split.
      * change (readable (FsDir n (Some sub) :: l))
          with (readable sub && readable l)%bool.
        rewrite Hr1; reflexivity.
      * eapply frame_trans; [ apply frame_with_counters | exact Hf1 ].
  - destruct (loop_unlistable r p rel n l g) as (g' & -> & Hc & Hs).
    split; [ reflexivity | split; assumption ].
  - destruct st as [st|].
    + rewrite loop_file.
      specialize (IHl r p rel (with_counters g (id_counter g + 1) (category_id_counter g))).
      destruct (for_each _ l _) as [[rest|e] g3].
      * destruct IHl as (Hr & Hs & Hf).
        split; [ exact Hr | split ].
        -- constructor. exact Hs.
        -- eapply frame_trans; [ apply frame_with_counters | exact Hf ].
      * destruct IHl as (Hr & Hf).
        split; [ exact Hr | ].
        eapply frame_trans; [ apply frame_with_counters | exact Hf ].
    + rewrite loop_unstatable. split; [ reflexivity | apply frame_refl ].
  - rewrite loop_other.
    specialize (IHl r p rel g).
    destruct (for_each _ l g) as [[rest|e] g3].
    + destruct IHl as (Hr & Hs & Hf). split; [ exact Hr | split; [ | exact Hf ] ].
      constructor. exact Hs.
    + exact IHl.
Qed.

Lemma scan_directory_spec root r p rel g :
  match scan_directory strftime_dmY root r p rel g with
  | (Ok items, g') =>
      exists entries,
        root = Some entries /\ readable entries = true
        /\ Scanned strftime_dmY r p rel (id_counter g) (category_id_counter g) entries items
                   (id_counter g') (category_id_counter g')
        /\ frame g g'
  | (Raise e, g') => readable_root root = false /\ frame g g'
  end.
Proof.
  destruct root as [entries|].
  - unfold scan_directory, for_scandir.
    pose proof (loop_spec entries r p rel g) as H.
    destruct (for_each _ entries g) as [[items|e] g'].
    + exists entries. split; [ reflexivity | exact H ].
    + exact H.
  - cbn. split; [ reflexivity | apply frame_refl ].
Qed.

(** [update_storage_data] in terms of the walk it starts. *)
Lemma update_storage_data_unfold root g :
  update_storage_data strftime_dmY root g =
  match scan_directory strftime_dmY root true PyNone "" (with_counters g 1 1) with
  | (Ok tree, g') =>
      (Ok tt, {| categories := categories g'; storage_data := tree;
                 id_counter := id_counter g';
                 category_id_counter := category_id_counter g' |})
  | (Raise e, g') => (Ok tt, g')
  end.
Proof.
  unfold update_storage_data, try_except, bind.
  cbn [set_id_counter set_category_id_counter categories storage_data
       id_counter category_id_counter].
  change {| categories := categories g; storage_data := storage_data g;
            id_counter := 1; category_id_counter := 1 |} with (with_counters g 1 1).
  destruct (scan_directory _ root true PyNone "" (with_counters g 1 1)) as [[tree|e] g'];
    reflexivity.
Qed.

(** *** Identifiers follow the order of discovery *)

Lemma count_from_app i n m :
  count_from i (n + m) = (count_from i n ++ count_from (i + Z.of_nat n) m)%list.
Proof.
  revert i; induction n as [|n IH]; intros i.
  - cbn. now rewrite Z.add_0_r.
  - cbn [count_from Nat.add app]. rewrite IH. do 3 f_equal. lia.
Qed.

Lemma count_from_seq a n :
  count_from (Z.of_nat a) n = map Z.of_nat (seq a n).
Proof.
  revert a; induction n as [|n IH]; intros a; [ reflexivity | ].
  cbn [count_from seq map]. f_equal.
  rewrite <- IH. f_equal. lia.
Qed.

Lemma Scanned_preorder r p rel i c entries items i' c' :
  Scanned strftime_dmY r p rel i c entries items i' c' ->
  i' = i + Z.of_nat (List.length (preorder items))
  /\ map (get "id") (preorder items)
     = map (fun k => Some (PyInt k)) (count_from i (List.length (preorder items)))
  /\ map (fun it => (get "name" it, has_children it)) (preorder items)
     = map (fun e => (Some (PyStr (node_name e)), is_dir e)) (discovered entries).
Proof.
  induction 1 as [ r p rel i c
                 | r p rel i c n sub l ch rest i2 c2 i3 c3 Hsub IHsub Hl IHl
                 | r p rel i c n st l rest i3 c3 Hl IHl
                 | r p rel i c n l rest i3 c3 Hl IHl ].
  - cbn. repeat split. lia.
  - destruct IHsub as (Ei2 & Eids1 & Enames1).
    destruct IHl as (Ei3 & Eids2 & Enames2).
    unfold dir_node. rewrite preorder_node.
    change (discovered (FsDir n (Some sub) :: l))
      with (FsDir n (Some sub) :: discovered sub ++ discovered l)%list.
    cbn [List.length map count_from].
    rewrite !map_app, length_app, count_from_app, map_app.
    rewrite Eids1, Enames1, Enames2.
    split; [ lia | split ].
    + f_equal. f_equal.
      rewrite Eids2. do 2 f_equal. lia.
    + reflexivity.
  - destruct IHl as (Ei3 & Eids & Enames).
    unfold file_node. rewrite preorder_leaf.
    change (discovered (FsFile n (Some st) :: l))
      with (FsFile n (Some st) :: discovered l).
    cbn [List.length map count_from].
    rewrite Eids, Enames.
    split; [ lia | split; reflexivity ].
  - exact IHl.
Qed.

(** *** Categories are inherited *)

Lemma scalar_eqb_refl a : scalar_eqb a a = true.
Proof. destruct a; cbn; [ reflexivity | apply Z.eqb_refl | apply String.eqb_refl ]. Qed.

Lemma Scanned_below_inherits p rel i c entries items i' c' :
  Scanned strftime_dmY false p rel i c entries items i' c' ->
  forall anc, inherited "idCategory" anc (Some p) = true ->
  forallb (inherits_item "idCategory" "idCategory" anc) items = true.
Proof.
  intros H. remember false as r eqn:Er. revert Er.
  induction H as [ r p rel i c
                 | r p rel i c n sub l ch rest i2 c2 i3 c3 Hsub IHsub Hl IHl
                 | r p rel i c n st l rest i3 c3 Hl IHl
                 | r p rel i c n l rest i3 c3 Hl IHl ];
    intros Er anc Hanc; subst r.
  - reflexivity.
  - cbn [forallb]. rewrite (IHl eq_refl anc Hanc), andb_true_r.
    unfold dir_node.
    cbn -[forallb inherited].
    rewrite Hanc. cbn [andb].
    apply (IHsub eq_refl anc Hanc).
  - cbn [forallb]. rewrite (IHl eq_refl anc Hanc), andb_true_r.
    unfold file_node.
    cbn -[inherited]. exact Hanc.
  - apply (IHl eq_refl anc Hanc).
Qed.

Lemma Scanned_root_inherits rel i c entries items i' c' :
  Scanned strftime_dmY true PyNone rel i c entries items i' c' ->
  forallb (inherits_item "idCategory" "idCategory" None) items = true.
Proof.
  intros H. remember true as r eqn:Er. remember PyNone as p eqn:Ep. revert Er Ep.
  induction H as [ r p rel i c
                 | r p rel i c n sub l ch rest i2 c2 i3 c3 Hsub IHsub Hl IHl
                 | r p rel i c n st l rest i3 c3 Hl IHl
                 | r p rel i c n l rest i3 c3 Hl IHl ];
    intros Er Ep; subst r p.
  - reflexivity.
  - cbn [forallb]. rewrite (IHl eq_refl eq_refl), andb_true_r.
    unfold dir_node.
    cbn -[forallb inherited].
    eapply Scanned_below_inherits; [ exact Hsub | ].
    cbn. apply Z.eqb_refl.
  - cbn [forallb]. rewrite (IHl eq_refl eq_refl), andb_true_r.
    reflexivity.
  - apply (IHl eq_refl eq_refl).
Qed.

(** *** Category identifiers in the scanned tree *)

Lemma py_eq_int_true v k : py_eq_int v k = true -> v = PyInt k.
Proof.
  destruct v as [|z|t]; cbn; try discriminate.
  intros H. apply Z.eqb_eq in H. now subst.
Qed.

Lemma matches_iff k it : matches k it = true <-> get "idCategory" it = Some (PyInt k).
Proof.
  unfold matches. destruct (get "idCategory" it) as [v|].
  - split.
    + intros H. now rewrite (py_eq_int_true _ _ H).
    + intros [= ->]. cbn. apply Z.eqb_refl.
  - split; discriminate.
Qed.

Lemma matches_dir_node r n i cid ch k :
  matches k (dir_node r n i cid ch) = py_eq_int cid k.
Proof. reflexivity. Qed.

Lemma matches_file_node d p rel n st i k :
  matches k (file_node d p rel n st i) = false.
Proof. reflexivity. Qed.

Lemma find_none {A : Type} (f : A -> bool) l :
  (forall x, In x l -> f x = false) -> find f l = None.
Proof.
  intros H. destruct (find f l) as [x|] eqn:E; [ | reflexivity ].
  apply find_some in E. destruct E as [Hin Hf].
  rewrite (H x Hin) in Hf. discriminate.
Qed.

(** Below a category the category counter does not move, and the only
    value found under ['idCategory'] is the one handed down. *)
Lemma Scanned_below p rel i c entries items i' c' :
  Scanned strftime_dmY false p rel i c entries items i' c' ->
  c' = c
  /\ forall k n, In n (preorder items) -> matches k n = true -> p = PyInt k.
Proof.
  intros H. remember false as r eqn:Er. revert Er.
  induction H as [ r p rel i c
                 | r p rel i c n sub l ch rest i2 c2 i3 c3 Hsub IHsub Hl IHl
                 | r p rel i c n st l rest i3 c3 Hl IHl
                 | r p rel i c n l rest i3 c3 Hl IHl ];
    intros Er; subst r.
  - split; [ reflexivity | intros k n [] ].
  - destruct (IHsub eq_refl) as (Ec2 & Hch).
    destruct (IHl eq_refl) as (Ec3 & Hrest).
    split; [ congruence | ].
    intros k n0 Hin Hm.
    unfold dir_node in Hin. rewrite preorder_node in Hin.
    destruct Hin as [<- | Hin].
    + apply py_eq_int_true. exact Hm.
    + apply in_app_or in Hin. destruct Hin as [Hin | Hin]; eauto.
  - destruct (IHl eq_refl) as (Ec3 & Hrest).
    split; [ exact Ec3 | ].
    intros k n0 Hin Hm.
    unfold file_node in Hin. rewrite preorder_leaf in Hin.
    destruct Hin as [<- | Hin]; [ discriminate Hm | eauto ].
  - apply (IHl eq_refl).
Qed.

(** At the root every directory takes the next category identifier. *)
Lemma Scanned_root p rel i c entries items i' c' :
  Scanned strftime_dmY true p rel i c entries items i' c' ->
  c' = c + Z.of_nat (List.length (dir_names entries))
  /\ List.length (top_categories items) = List.length (dir_names entries)
  /\ (forall k n, In n (preorder items) -> matches k n = true -> c <= k < c')
  /\ (forall j name, nth_error (dir_names entries) j = Some name ->
      exists node,
        nth_error (top_categories items) j = Some node
        /\ In node items
        /\ has_type "Category" node = true
        /\ get "idCategory" node = Some (PyInt (c + Z.of_nat j))
        /\ get "name" node = Some (PyStr name)
        /\ find (matches (c + Z.of_nat j)) (preorder items) = Some node).
Proof.
  intros H. remember true as r eqn:Er. revert Er.
  induction H as [ r p rel i c
                 | r p rel i c n sub l ch rest i2 c2 i3 c3 Hsub IHsub Hl IHl
                 | r p rel i c n st l rest i3 c3 Hl IHl
                 | r p rel i c n l rest i3 c3 Hl IHl ];
    intros Er; subst r.
  - cbn. split; [ lia | split; [ reflexivity | split ] ].
    + intros k n [].
    + intros [|j] name; discriminate.
  - clear IHsub.
    destruct (Scanned_below _ _ _ _ _ _ _ _ Hsub) as (Ec2 & Hch).
    destruct (IHl eq_refl) as (Ec3 & Elen & Hrange & Hnth).
    change (dir_names (FsDir n (Some sub) :: l)) with (n :: dir_names l).
    change (top_categories (dir_node true n i (PyInt c) ch :: rest))
      with (dir_node true n i (PyInt c) ch :: top_categories rest).
    cbn [List.length].
    split; [ lia | split; [ congruence | split ] ].
    + intros k n0 Hin Hm.
      unfold dir_node in Hin. rewrite preorder_node in Hin.
      destruct Hin as [<- | Hin].
      * change (py_eq_int (PyInt c) k = true) in Hm.
        apply py_eq_int_true in Hm. injection Hm as <-. lia.
      * apply in_app_or in Hin. destruct Hin as [Hin | Hin].
        -- specialize (Hch k n0 Hin Hm). injection Hch as <-. lia.
        -- specialize (Hrange k n0 Hin Hm). lia.
    + intros [|j] name Hj.
      * injection Hj as <-.
        exists (dir_node true n i (PyInt c) ch).
        rewrite Z.add_0_r.
        repeat split; try reflexivity.
        -- left; reflexivity.
        -- unfold dir_node at 1. rewrite preorder_node. cbn [find].
           change (Dict _ (Some ch)) with (dir_node true n i (PyInt c) ch).
           rewrite matches_dir_node. cbn. now rewrite Z.eqb_refl.
      * cbn [nth_error] in Hj.
        destruct (Hnth j name Hj) as (node & Hn & Hin & Ht & Hid & Hname & Hfind).
        assert (Ek : c2 + Z.of_nat j = c + Z.of_nat (S j)) by lia.
        rewrite Ek in Hid, Hfind.
        exists node. cbn [nth_error].
        repeat split; try assumption.
        -- right; exact Hin.
        -- unfold dir_node at 1. rewrite preorder_node. cbn [find].
           change (Dict _ (Some ch)) with (dir_node true n i (PyInt c) ch).
           rewrite matches_dir_node.
           replace (py_eq_int (PyInt c) (c + Z.of_nat (S j))) with false
             by (cbn; symmetry; apply Z.eqb_neq; lia).
           rewrite find_over_app, find_none; [ exact Hfind | ].
           intros x Hx. destruct (matches (c + Z.of_nat (S j)) x) eqn:Hm; [ | reflexivity ].
           specialize (Hch _ _ Hx Hm). injection Hch. lia.
  - destruct (IHl eq_refl) as (Ec3 & Elen & Hrange & Hnth).
    change (dir_names (FsFile n (Some st) :: l)) with (dir_names l).
    change (top_categories (file_node (strftime_dmY (st_ctime st)) p rel n st i :: rest))
      with (top_categories rest).
    split; [ exact Ec3 | split; [ exact Elen | split ] ].
    + intros k n0 Hin Hm.
      unfold file_node in Hin. rewrite preorder_leaf in Hin.
      destruct Hin as [<- | Hin]; [ discriminate Hm | eauto ].
    + intros j name Hj.
      destruct (Hnth j name Hj) as (node & Hn & Hin & Ht & Hid & Hname & Hfind).
      exists node. repeat split; try assumption.
      right; exact Hin.
  - apply (IHl eq_refl).
Qed.

(** *** Relative paths and download addresses *)

Lemma endswith_app c a b :
  b <> "" -> os_path.endswith c (a ++ b) = os_path.endswith c b.
Proof.
  intros Hb. induction a as [|x a IH]; [ reflexivity | ].
  cbn [append]. cbn [os_path.endswith].
  destruct (a ++ b) as [|y t] eqn:E.
  - destruct a; cbn in E; [ congruence | discriminate ].
  - exact IH.
Qed.

Lemma valid_name_endswith n :
  valid_name n = true -> os_path.endswith os_path.sep n = false.
Proof.
  unfold valid_name. intros H. apply andb_true_iff in H. destruct H as [_ H].
  induction n as [|x n IH]; [ reflexivity | ].
  cbn [no_sep] in H. apply andb_true_iff in H. destruct H as [Hx Hn].
  cbn [os_path.endswith]. destruct n as [|y t].
  - now apply negb_true_iff in Hx.
  - apply IH, Hn.
Qed.

Lemma valid_name_startswith n :
  valid_name n = true -> os_path.startswith os_path.sep n = false.
Proof.
  unfold valid_name. destruct n as [|x n]; [ reflexivity | ].
  cbn. intros H. apply andb_true_iff in H. destruct H as [H _].
  now apply negb_true_iff in H.
Qed.

Lemma valid_name_nonempty n : valid_name n = true -> n <> "".
Proof. intros H ->. discriminate H. Qed.

Lemma replace_char_same a s : replace_char a a s = s.
Proof.
  induction s as [|c s IH]; [ reflexivity | ].
  cbn. rewrite IH. destruct (Ascii.eqb_spec c a); congruence.
Qed.

Lemma join_child rel n :
  valid_name n = true -> os_path.endswith os_path.sep rel = false ->
  os_path.join rel n = child_path rel n.
Proof.
  intros Hn Hrel. unfold os_path.join, child_path.
  rewrite (valid_name_startswith n Hn), Hrel, orb_false_r.
  destruct (String.eqb_spec rel "") as [-> | _]; reflexivity.
Qed.

Lemma child_path_endswith rel n :
  valid_name n = true -> os_path.endswith os_path.sep (child_path rel n) = false.
Proof.
  intros Hn. unfold child_path.
  destruct (String.eqb rel "").
  - apply valid_name_endswith, Hn.
  - rewrite endswith_app by discriminate.
    change ("/" ++ n) with (String "/"%char n).
    pose proof (valid_name_nonempty n Hn) as Hne.
    destruct n as [|x t]; [ congruence | ].
    change (os_path.endswith os_path.sep (String "/" (String x t)))
      with (os_path.endswith os_path.sep (String x t)).
    apply valid_name_endswith, Hn.
Qed.

Lemma has_type_file_dir_node r n i cid ch : has_type "file" (dir_node r n i cid ch) = false.
Proof. destruct r; reflexivity. Qed.

Lemma Scanned_file_urls r p rel i c entries items i' c' :
  Scanned strftime_dmY r p rel i c entries items i' c' ->
  os_path.endswith os_path.sep rel = false ->
  well_named entries = true ->
  map (get "filepath") (file_nodes items)
  = map (fun path => Some (PyStr (BASE_URL ++ "/files/storage/" ++ quote path)))
        (file_paths rel entries).
Proof.
  unfold file_nodes.
  induction 1 as [ r p rel i c
                 | r p rel i c n sub l ch rest i2 c2 i3 c3 Hsub IHsub Hl IHl
                 | r p rel i c n st l rest i3 c3 Hl IHl
                 | r p rel i c n l rest i3 c3 Hl IHl ];
    intros Hrel Hwn.
  - reflexivity.
  - change (well_named (FsDir n (Some sub) :: l))
      with ((valid_name n && well_named sub) && well_named l)%bool in Hwn.
    apply andb_true_iff in Hwn. destruct Hwn as [Hwn Hwl].
    apply andb_true_iff in Hwn. destruct Hwn as [Hn Hws].
    change (file_paths rel (FsDir n (Some sub) :: l))
      with (file_paths (child_path rel n) sub ++ file_paths rel l)%list.
    rewrite (join_child rel n Hn Hrel) in IHsub.
    specialize (IHsub (child_path_endswith rel n Hn) Hws).
    specialize (IHl Hrel Hwl).
    unfold dir_node at 1. rewrite preorder_node. cbn [filter].
    change (Dict _ (Some ch)) with (dir_node r n i (if r then PyInt c else p) ch).
    rewrite has_type_file_dir_node.
    rewrite filter_app, !map_app, IHsub, IHl. reflexivity.
  - change (well_named (FsFile n (Some st) :: l))
      with ((valid_name n && true) && well_named l)%bool in Hwn.
    rewrite andb_true_r in Hwn.
    apply andb_true_iff in Hwn. destruct Hwn as [Hn Hwl].
    change (file_paths rel (FsFile n (Some st) :: l))
      with (child_path rel n :: file_paths rel l).
    specialize (IHl Hrel Hwl).
    unfold file_node at 1. rewrite preorder_leaf. cbn [filter].
    change (has_type "file" (Dict _ None)) with true. cbn iota.
    cbn [map]. rewrite IHl. f_equal.
    change (get "filepath" (Dict _ None))
      with (Some (PyStr (file_url (os_path.join rel n)))).
    unfold file_url. rewrite replace_char_same, (join_child rel n Hn Hrel). reflexivity.
  - change (well_named (FsOther n :: l))
      with ((valid_name n && true) && well_named l)%bool in Hwn.
    apply andb_true_iff in Hwn. destruct Hwn as [_ Hwl].
    apply (IHl Hrel Hwl).
Qed.

End Walk.

(** ** The category lister *)

Section Lister.

Lemma update_categories_listed entries g :
  update_categories (Some entries) g =
  (Ok tt,
   {| categories :=
        map (fun p => Dict [("idCategory", PyInt (fst p + 1));
                            ("textCategory", PyStr (snd p))] None)
            (enumerate_from 0
               (filter (os_path_isdir (Some entries)) (map entry_name entries)));
      storage_data := storage_data g;
      id_counter := id_counter g;
      category_id_counter := category_id_counter g |}).
Proof. reflexivity. Qed.

Lemma update_categories_unlistable g : update_categories None g = (Ok tt, g).
Proof. reflexivity. Qed.

Lemma find_by_name entries e :
  NoDup (map entry_name entries) -> In e entries ->
  find (fun e' => String.eqb (entry_name e') (entry_name e)) entries = Some e.
Proof.
  induction entries as [|e0 rest IH]; intros Hnd Hin; [ destruct Hin | ].
  cbn [map] in Hnd. inversion Hnd as [|x xs Hnotin Hnd']; subst.
  cbn [find]. destruct (String.eqb_spec (entry_name e0) (entry_name e)) as [E | NE].
  - destruct Hin as [-> | Hin]; [ reflexivity | ].
    exfalso. apply Hnotin. rewrite E. apply in_map, Hin.
  - destruct Hin as [-> | Hin]; [ congruence | ].
    apply IH; assumption.
Qed.

(** With distinct names, testing each name of the listing with
    [os.path.isdir] keeps the names of the directories. *)
Lemma isdir_filter entries :
  NoDup (map entry_name entries) ->
  filter (os_path_isdir (Some entries)) (map entry_name entries) = dir_names entries.
Proof.
  intros Hnd.
  assert (H : forall l, (forall e, In e l -> In e entries) ->
              filter (os_path_isdir (Some entries)) (map entry_name l) = dir_names l).
  { induction l as [|e l IH]; intros Hsub; [ reflexivity | ].
    cbn [map filter]. unfold os_path_isdir at 1.
    rewrite (find_by_name entries e Hnd (Hsub e (or_introl eq_refl))).
    rewrite IH by (intros e' He'; apply Hsub; right; exact He').
    unfold dir_names. cbn [filter]. destruct (is_dir e); reflexivity. }
  apply H. auto.
Qed.

Lemma enumerate_entries names :
  map (fun p => Dict [("idCategory", PyInt (fst p + 1));
                      ("textCategory", PyStr (snd p))] None)
      (enumerate_from 0 names)
  = category_entries names.
Proof.
  unfold enumerate_from, category_entries.
  change (Z.to_nat 0) with 0%nat.
  generalize 0%nat as a.
  induction names as [|x names IH]; intros a; [ reflexivity | ].
  cbn [List.length seq map combine fst snd].
  rewrite IH. replace (Z.of_nat a + 1) with (Z.of_nat (S a)) by lia. reflexivity.
Qed.

Lemma update_categories_spec entries g :
  NoDup (map entry_name entries) ->
  categories (run (update_categories (Some entries)) g)
  = category_entries (dir_names entries).
Proof.
  intros Hnd. unfold run. rewrite update_categories_listed.
  cbn [snd categories]. rewrite (isdir_filter entries Hnd).
  apply enumerate_entries.
Qed.

Lemma nth_error_category_entries names j :
  nth_error (category_entries names) j
  = option_map (fun name => Dict [("idCategory", PyInt (Z.of_nat j + 1));
                                  ("textCategory", PyStr name)] None)
               (nth_error names j).
Proof.
  unfold category_entries.
  assert (H : forall a,
    nth_error
      (map (fun p => Dict [("idCategory", PyInt (Z.of_nat (fst p)));
                           ("textCategory", PyStr (snd p))] None)
           (combine (seq a (List.length names)) names)) j
    = option_map
        (fun name => Dict [("idCategory", PyInt (Z.of_nat j + Z.of_nat a));
                           ("textCategory", PyStr name)] None)
        (nth_error names j)).
  { revert j. induction names as [|x names IH]; intros j a.
    - destruct j; reflexivity.
    - destruct j as [|j]; cbn [List.length seq combine map nth_error option_map fst snd].
      + reflexivity.
      + rewrite IH.
        replace (Z.of_nat j + Z.of_nat (S a)) with (Z.of_nat (S j) + Z.of_nat a) by lia.
        reflexivity. }
  apply H.
Qed.

End Lister.

(** * Properties of the indexer *)

Section Properties.

Variable strftime_dmY : Z -> string.

(** One refresh of the tree over a readable directory tree publishes what
    the walk returns, started with both counters at 1. *)
Lemma scan_pass entries g :
  readable entries = true ->
  exists tree i' c',
    Scanned strftime_dmY true PyNone "" 1 1 entries tree i' c'
    /\ run (update_storage_data strftime_dmY (Some entries)) g
       = {| categories := categories g; storage_data := tree;
            id_counter := i'; category_id_counter := c' |}.
Proof.
  intros Hr. unfold run. rewrite update_storage_data_unfold.
  pose proof (scan_directory_spec strftime_dmY (Some entries) true PyNone ""
                (with_counters g 1 1)) as H.
  destruct (scan_directory _ _ _ _ _ _) as [[tree|e] g'].
  - destruct H as (entries0 & [= <-] & _ & Hs & Hc & _).
    exists tree, (id_counter g'), (category_id_counter g').
    split; [ exact Hs | ].
    cbn [snd]. f_equal. exact Hc.
  - destruct H as [H _]. cbn in H. congruence.
Qed.

(** A refresh over a tree with an unreadable directory or file publishes
    nothing. *)
Lemma failed_pass root g :
  readable_root root = false ->
  exists g', update_storage_data strftime_dmY root g = (Ok tt, g')
             /\ categories g' = categories g /\ storage_data g' = storage_data g.
Proof.
  intros Hr. rewrite update_storage_data_unfold.
  pose proof (scan_directory_spec strftime_dmY root true PyNone ""
                (with_counters g 1 1)) as H.
  destruct (scan_directory _ _ _ _ _ _) as [[tree|e] g'].
  - destruct H as (entries & -> & Hr' & _). cbn in Hr. congruence.
  - destruct H as [_ [Hc Hs]]. exists g'. repeat split; assumption.
Qed.

(** C1 (as amended). In the tree one scan pass publishes, the category
    every folder carries under ['idCategory'] and every file under
    ['categoryId'] is the ['idCategory'] of its nearest Category ancestor,
    at any depth; a file directly under the scan root carries [None]. *)
Theorem category_inherited entries g :
  readable entries = true ->
  forallb (inherits_item "idCategory" "idCategory" None)
          (storage_data (run (update_storage_data strftime_dmY (Some entries)) g)) = true.
Proof.
  intros Hr.
  destruct (scan_pass entries g Hr) as (tree & i' & c' & Hs & ->).
  cbn [storage_data].
  eapply Scanned_root_inherits. exact Hs.
Qed.

Lemma sorted_of_nat a n : StronglySorted Z.lt (map Z.of_nat (seq a n)).
Proof.
  revert a; induction n as [|n IH]; intros a; cbn [seq map]; constructor.
  - apply IH.
  - apply Forall_forall. intros z Hz.
    apply in_map_iff in Hz. destruct Hz as (k & <- & Hk).
    apply in_seq in Hk. lia.
Qed.

Lemma nodup_of_nat a n : NoDup (map Z.of_nat (seq a n)).
Proof.
  revert a; induction n as [|n IH]; intros a; cbn [seq map]; constructor.
  - intros Hin. apply in_map_iff in Hin. destruct Hin as (k & E & Hk).
    apply in_seq in Hk. lia.
  - apply IH.
Qed.

Lemma node_id_of_get l zs :
  map (get "id") l = map (fun k => Some (PyInt k)) zs -> map node_id l = zs.
Proof.
  revert zs; induction l as [|it l IH]; intros [|z zs] H; try discriminate; [ reflexivity | ].
  cbn [map] in *. injection H as Hit Hl.
  rewrite (IH zs Hl). unfold node_id. rewrite Hit. reflexivity.
Qed.

(** C2. One scan pass numbers the nodes 1, 2, 3, ... in the order the walk
    discovers the entries, depth first, a directory before what it holds,
    and directories and files alike; so the identifiers of a pass are
    distinct and increase along that order. *)
Theorem ids_follow_discovery entries g :
  readable entries = true ->
  let tree := storage_data (run (update_storage_data strftime_dmY (Some entries)) g) in
  map (get "id") (preorder tree)
  = map (fun k => Some (PyInt (Z.of_nat k))) (seq 1 (List.length (discovered entries)))
  /\ map (fun it => (get "name" it, has_children it)) (preorder tree)
     = map (fun e => (Some (PyStr (node_name e)), is_dir e)) (discovered entries)
  /\ NoDup (map node_id (preorder tree))
  /\ StronglySorted Z.lt (map node_id (preorder tree)).
Proof.
  intros Hr.
  destruct (scan_pass entries g Hr) as (tree & i' & c' & Hs & ->).
  cbn [storage_data]. cbv zeta.
  destruct (Scanned_preorder _ _ _ _ _ _ _ _ _ _ Hs) as (_ & Hids & Hnames).
  assert (Hlen : List.length (preorder tree) = List.length (discovered entries)).
  { apply (f_equal (@List.length _)) in Hnames. now rewrite !length_map in Hnames. }
  rewrite Hlen in Hids.
  change 1 with (Z.of_nat 1) in Hids. rewrite count_from_seq in Hids.
  assert (Hnode : map node_id (preorder tree)
                  = map Z.of_nat (seq 1 (List.length (discovered entries)))).
  { apply node_id_of_get. exact Hids. }
  split; [ | split; [ exact Hnames | split ] ].
  - rewrite Hids, map_map. reflexivity.
  - rewrite Hnode. apply nodup_of_nat.
  - rewrite Hnode. apply sorted_of_nat.
Qed.

(** C3. [find_category] returns the first node, in depth-first order
    (a node before its children, children in list order), whose
    ['idCategory'] equals the requested integer, and [get_storage]
    answers with that node, or with the object
    [{'error': 'Category not found'}] when no node matches. *)
Theorem get_storage_first_match g category_id :
  find_category (storage_data g) category_id
  = find (matches category_id) (preorder (storage_data g))
  /\ get_storage (Some category_id) g
     = match find (matches category_id) (preorder (storage_data g)) with
       | Some node => JObject node
       | None => JObject (Dict [("error", PyStr "Category not found")] None)
       end.
Proof.
  unfold get_storage. rewrite find_category_preorder.
  split; [ reflexivity | ].
  destruct (find _ _); reflexivity.
Qed.

(** C4. A refresh that fails, because the root or anything below it
    cannot be read, returns normally and leaves the published tree and the
    published category list as they were. *)
Theorem failed_refresh_keeps_published root g :
  (readable_root root = false ->
   fst (update_storage_data strftime_dmY root g) = Ok tt
   /\ storage_data (run (update_storage_data strftime_dmY root) g) = storage_data g
   /\ categories (run (update_storage_data strftime_dmY root) g) = categories g)
  /\ (root = None ->
      fst (update_categories root g) = Ok tt
      /\ storage_data (run (update_categories root) g) = storage_data g
      /\ categories (run (update_categories root) g) = categories g)
  /\ fst (update_storage_data strftime_dmY root g) = Ok tt
  /\ fst (update_categories root g) = Ok tt.
Proof.
  split; [ | split; [ | split ] ].
  - intros Hr. destruct (failed_pass root g Hr) as (g' & E & Hc & Hs).
    unfold run. rewrite E. repeat split; assumption.
  - intros ->. unfold run. rewrite update_categories_unlistable. repeat split.
  - rewrite update_storage_data_unfold.
    destruct (scan_directory _ _ _ _ _ _) as [[tree|e] g']; reflexivity.
  - destruct root as [entries|]; reflexivity.
Qed.

(** *** The rendered size *)

Lemma round_half_even_bound n d :
  0 < d -> 2 * Z.abs (d * round_half_even n d - n) <= d.
Proof.
  intros Hd. unfold round_half_even.
  pose proof (Z.div_mod n d ltac:(lia)) as E.
  pose proof (Z.mod_pos_bound n d Hd) as B.
  set (q := n / d) in *. set (r := n mod d) in *.
  destruct (Z.ltb_spec (2 * r) d); [ lia | ].
  destruct (Z.ltb_spec d (2 * r)); [ lia | ].
  destruct (Z.even q); lia.
Qed.

Lemma round_half_even_nonneg n d : 0 <= n -> 0 < d -> 0 <= round_half_even n d.
Proof.
  intros Hn Hd. unfold round_half_even.
  pose proof (Z.div_pos n d Hn Hd).
  destruct (_ <? _); [ lia | ].
  destruct (_ <? _); [ lia | ].
  destruct (Z.even _); lia.
Qed.

Lemma to_binary64_exact S : 0 <= S -> S < 2 ^ 53 -> to_binary64 S = S.
Proof.
  intros H0 H. unfold to_binary64.
  assert (Hl : Z.log2 S - 52 <= 0).
  { destruct (Z.eq_dec S 0) as [-> | NZ]; [ cbn; lia | ].
    assert (Z.log2 S < 53) by (apply Z.log2_lt_pow2; lia). lia. }
  destruct (Z.leb_spec (Z.log2 S - 52) 0); [ reflexivity | lia ].
Qed.


Lemma file_size_cases S :
  file_size S
  = two_decimals (round_half_even (100 * to_binary64 S)
                    (if S <? 1048576 then 1024 else 1048576))
    ++ " " ++ (if S <? 1048576 then "KB" else "MB").
Proof.
  unfold file_size, size_label, format_2f.
  change (1024 * 1024) with 1048576.
  destruct (S <? 1048576); reflexivity.
Qed.

Lemma scan_entry_file r p rel n st g :
  scan_entry strftime_dmY r p rel (FsFile n (Some st)) g
  = (Ok [file_node (strftime_dmY (st_ctime st)) p rel n st (id_counter g)],
     with_counters g (id_counter g + 1) (category_id_counter g)).
Proof.
  destruct g as [cs sd i c].
  cbn. unfold bind, file_node, file_type, file_url, with_counters; cbn.
  destruct (os_path.splitext n) as [fname fext]; reflexivity.
Qed.

Lemma append_assoc_local (a b c : string) : (a ++ b) ++ c = a ++ (b ++ c).
Proof. induction a as [|x a IH]; [ reflexivity | cbn; now rewrite IH ]. Qed.








(** *** Download addresses *)

(** C7 (as amended). Every File node carries under ['filepath'] the base
    address, then [/files/storage/], then the quoted path of the file
    relative to the scan root, written with forward slashes. *)
Theorem file_nodes_carry_filepath entries g :
  readable entries = true ->
  well_named entries = true ->
  map (get "filepath")
      (file_nodes (storage_data (run (update_storage_data strftime_dmY (Some entries)) g)))
  = map (fun path => Some (PyStr (BASE_URL ++ "/files/storage/" ++ quote path)))
        (file_paths "" entries).
Proof.
  intros Hr Hw.
  destruct (scan_pass entries g Hr) as (tree & i' & c' & Hs & ->).
  cbn [storage_data].
  eapply Scanned_file_urls; [ exact Hs | reflexivity | exact Hw ].
Qed.

(** *** The category list and the categories of the tree *)

(** C8 (as amended). [get_categories] answers with the list of the
    objects [{'idCategory': k, 'textCategory': name}], one for every
    directory directly in the root and for nothing else, in the order of
    the listing, [k] being the position of the directory among them,
    counted from 1. *)
Theorem categories_listed entries g :
  NoDup (map entry_name entries) ->
  get_categories (run (update_categories (Some entries)) g)
  = JArray (map (fun p => Dict [("idCategory", PyInt (Z.of_nat (fst p)));
                                ("textCategory", PyStr (snd p))] None)
                (combine (seq 1 (List.length (filter is_dir entries)))
                         (map entry_name (filter is_dir entries)))).
Proof.
  intros Hnd. unfold get_categories.
  rewrite (update_categories_spec entries g Hnd).
  unfold category_entries, dir_names. rewrite length_map. reflexivity.
Qed.

Lemma has_type_exclusive a b it :
  has_type a it = true -> String.eqb a b = false -> has_type b it = false.
Proof.
  unfold has_type. destruct (get "type" it) as [[|z|t]|]; try discriminate.
  intros Ha Hab. apply String.eqb_eq in Ha. subst t. exact Hab.
Qed.

(** A Category node at the top sits at some position among the Category
    nodes, carries the identifier of that position and is what the search
    for that identifier finds. *)
Lemma top_category_found p rel i c entries items i' c' :
  Scanned strftime_dmY true p rel i c entries items i' c' ->
  forall cat, In cat (top_categories items) ->
  exists j,
    nth_error (top_categories items) j = Some cat
    /\ get "idCategory" cat = Some (PyInt (c + Z.of_nat j))
    /\ find (matches (c + Z.of_nat j)) (preorder items) = Some cat.
Proof.
  intros Hs cat Hin.
  destruct (Scanned_root _ _ _ _ _ _ _ _ _ Hs) as (_ & Elen & _ & Hnth).
  destruct (In_nth_error _ _ Hin) as (j & Hj).
  assert (Hlt : (j < List.length (dir_names entries))%nat).
  { rewrite <- Elen. apply nth_error_Some. congruence. }
  destruct (nth_error (dir_names entries) j) as [name|] eqn:En;
    [ | apply nth_error_None in En; lia ].
  destruct (Hnth _ _ En) as (node & Hn & _ & _ & Hid & _ & Hfind).
  rewrite Hj in Hn. injection Hn as <-.
  exists j. repeat split; assumption.
Qed.

(** The Category nodes at the top carry pairwise different identifiers. *)
Lemma top_category_unique p rel i c entries items i' c' :
  Scanned strftime_dmY true p rel i c entries items i' c' ->
  forall a b k,
    In a (top_categories items) -> In b (top_categories items) ->
    get "idCategory" a = Some (PyInt k) -> get "idCategory" b = Some (PyInt k) ->
    a = b.
Proof.
  intros Hs a b k Ha Hb Hka Hkb.
  destruct (top_category_found _ _ _ _ _ _ _ _ Hs a Ha) as (ja & Hja & Hida & _).
  destruct (top_category_found _ _ _ _ _ _ _ _ Hs b Hb) as (jb & Hjb & Hidb & _).
  assert (Ea : k = c + Z.of_nat ja) by congruence.
  assert (Eb : k = c + Z.of_nat jb) by congruence.
  assert (ja = jb) by lia. subst jb.
  rewrite Hja in Hjb. now injection Hjb.
Qed.

(** A node that carries an identifier under ['idCategory'] is a Category
    node at the top that carries it, or lies below that Category node. *)
Lemma Scanned_root_owner p rel i c entries items i' c' :
  Scanned strftime_dmY true p rel i c entries items i' c' ->
  forall n k, In n (preorder items) -> matches k n = true ->
  exists cat,
    In cat (top_categories items)
    /\ get "idCategory" cat = Some (PyInt k)
    /\ In n (preorder_item cat).
Proof.
  intros H. remember true as r eqn:Er. revert Er.
  induction H as [ r p rel i c
                 | r p rel i c n0 sub l ch rest i2 c2 i3 c3 Hsub IHsub Hl IHl
                 | r p rel i c n0 st l rest i3 c3 Hl IHl
                 | r p rel i c n0 l rest i3 c3 Hl IHl ];
    intros Er n k Hin Hm; subst r.
  - destruct Hin.
  - change (top_categories (dir_node true n0 i (PyInt c) ch :: rest))
      with (dir_node true n0 i (PyInt c) ch :: top_categories rest).
    unfold dir_node in Hin. rewrite preorder_node in Hin.
    change (Dict _ (Some ch)) with (dir_node true n0 i (PyInt c) ch) in Hin.
    destruct Hin as [<- | Hin].
    + exists (dir_node true n0 i (PyInt c) ch).
      split; [ left; reflexivity | split; [ apply matches_iff, Hm | left; reflexivity ] ].
    + apply in_app_or in Hin. destruct Hin as [Hin | Hin].
      * destruct (Scanned_below _ _ _ _ _ _ _ _ _ Hsub) as (_ & Hch).
        specialize (Hch k n Hin Hm). injection Hch as <-.
        exists (dir_node true n0 i (PyInt c) ch).
        split; [ left; reflexivity | split; [ reflexivity | right; exact Hin ] ].
      * destruct (IHl eq_refl n k Hin Hm) as (cat & Hc & Hid & Hn).
        exists cat. split; [ right; exact Hc | split; assumption ].
  - change (top_categories (file_node (strftime_dmY (st_ctime st)) p rel n0 st i :: rest))
      with (top_categories rest).
    unfold file_node in Hin. rewrite preorder_leaf in Hin.
    destruct Hin as [<- | Hin]; [ discriminate Hm | ].
    apply (IHl eq_refl n k Hin Hm).
  - apply (IHl eq_refl n k Hin Hm).
Qed.

(** C9. In the tree of a scan pass, looking up an integer that some node
    [n] carries under ['idCategory'] returns the Category node at the top
    of the tree that carries it, which is [n] itself or the Category node
    [n] lies below: not a folder, not a file. That Category node is the
    only one carrying the integer, the Category nodes carrying pairwise
    different integers, so that every Category node is what the lookup of
    its own ['idCategory'] returns. *)
Theorem lookup_returns_category entries g n k :
  readable entries = true ->
  In n (preorder (storage_data (run (update_storage_data strftime_dmY (Some entries)) g))) ->
  get "idCategory" n = Some (PyInt k) ->
  exists cat,
    find_category (storage_data (run (update_storage_data strftime_dmY (Some entries)) g)) k
    = Some cat
    /\ get_storage (Some k) (run (update_storage_data strftime_dmY (Some entries)) g)
       = JObject cat
    /\ In cat (storage_data (run (update_storage_data strftime_dmY (Some entries)) g))
    /\ has_type "Category" cat = true
    /\ get "idCategory" cat = Some (PyInt k)
    /\ has_type "folder" cat = false
    /\ has_type "file" cat = false
    /\ In n (preorder_item cat)
    /\ (forall other,
          In other (top_categories
                      (storage_data (run (update_storage_data strftime_dmY (Some entries)) g))) ->
          get "idCategory" other = Some (PyInt k) -> other = cat)
    /\ (forall other,
          In other (top_categories
                      (storage_data (run (update_storage_data strftime_dmY (Some entries)) g))) ->
          exists k',
            get "idCategory" other = Some (PyInt k')
            /\ find_category
                 (storage_data (run (update_storage_data strftime_dmY (Some entries)) g)) k'
               = Some other).
Proof.
  intros Hr.
  destruct (scan_pass entries g Hr) as (tree & i' & c' & Hs & ->).
  cbn [storage_data]. intros Hin Hk.
  apply matches_iff in Hk.
  destruct (Scanned_root_owner _ _ _ _ _ _ _ _ Hs n k Hin Hk) as (cat & Hc & Hid & Hn).
  destruct (top_category_found _ _ _ _ _ _ _ _ Hs cat Hc) as (j & _ & Hidj & Hfind).
  assert (Ek : k = 1 + Z.of_nat j) by congruence.
  rewrite <- Ek in Hfind. clear Hidj.
  assert (Ht : has_type "Category" cat = true).
  { unfold top_categories in Hc. apply filter_In in Hc. apply Hc. }
  exists cat. unfold get_storage; cbn [storage_data].
  rewrite !find_category_preorder, Hfind.
  split; [ reflexivity | split; [ reflexivity | split ] ].
  { unfold top_categories in Hc. apply filter_In in Hc. apply Hc. }
  split; [ exact Ht | split; [ exact Hid | split ] ].
  { apply (has_type_exclusive "Category"); [ exact Ht | reflexivity ]. }
  split.
  { apply (has_type_exclusive "Category"); [ exact Ht | reflexivity ]. }
  split; [ exact Hn | split ].
  - intros other Ho Hko.
    apply (top_category_unique _ _ _ _ _ _ _ _ Hs other cat k Ho Hc Hko Hid).
  - intros other Ho.
    destruct (top_category_found _ _ _ _ _ _ _ _ Hs other Ho) as (j' & _ & Hid' & Hfind').
    exists (1 + Z.of_nat j'). split; [ exact Hid' | ].
    rewrite find_category_preorder. exact Hfind'.
Qed.

(** C10. When the lister and the scanner see the same directory names in
    the same order at the root, the entry at each position of the
    category list and the Category node at the same position among the
    top-level Category nodes carry the same ['idCategory'], the position
    counted from 1, and the same name; and asking [get_storage] for that
    identifier returns that node. *)
Theorem category_ids_coincide listed scanned g j entry :
  NoDup (map entry_name listed) ->
  readable scanned = true ->
  dir_names listed = dir_names scanned ->
  nth_error
    (categories (run (update_storage_data strftime_dmY (Some scanned))
                     (run (update_categories (Some listed)) g))) j = Some entry ->
  exists node,
    nth_error
      (top_categories
         (storage_data (run (update_storage_data strftime_dmY (Some scanned))
                            (run (update_categories (Some listed)) g)))) j = Some node
    /\ get "idCategory" entry = Some (PyInt (Z.of_nat j + 1))
    /\ get "idCategory" node = Some (PyInt (Z.of_nat j + 1))
    /\ get "name" node = get "textCategory" entry
    /\ get_storage (Some (Z.of_nat j + 1))
         (run (update_storage_data strftime_dmY (Some scanned))
              (run (update_categories (Some listed)) g)) = JObject node.
Proof.
  intros Hnd Hr Hnames.
  destruct (scan_pass scanned (run (update_categories (Some listed)) g) Hr)
    as (tree & i' & c' & Hs & ->).
  cbn [storage_data categories].
  rewrite (update_categories_spec listed g Hnd), nth_error_category_entries, Hnames.
  destruct (nth_error (dir_names scanned) j) as [name|] eqn:En; [ | discriminate ].
  cbn [option_map]. intros [= <-].
  destruct (Scanned_root _ _ _ _ _ _ _ _ _ Hs) as (_ & _ & _ & Hnth).
  destruct (Hnth _ _ En) as (node & Hn & _ & _ & Hid & Hname & Hfind).
  replace (1 + Z.of_nat j) with (Z.of_nat j + 1) in Hid, Hfind by lia.
  exists node. unfold get_storage; cbn [storage_data].
  rewrite find_category_preorder, Hfind.
  repeat split; assumption.
Qed.

End Properties.

(** * Publication *)

Section Publication.

Variable strftime_dmY : Z -> string.

Lemma for_each_traced_cons {A : Type} (body : A -> T (list item)) a l g :
  for_each_traced body (a :: l) g =
  match body a g with
  | ((Ok x, g1), s1) =>
      match for_each_traced body l g1 with
      | ((Ok rest, g2), s2) => ((Ok (x ++ rest)%list, g2), (s1 ++ s2)%list)
      | ((Raise e, g2), s2) => ((Raise e, g2), (s1 ++ s2)%list)
      end
  | ((Raise e, g1), s1) => ((Raise e, g1), s1)
  end.
Proof.
  cbn [for_each_traced]. unfold tbind, quiet, ret.
  destruct (body a g) as [[[x|e] g1] s1]; [ | reflexivity ].
  destruct (for_each_traced body l g1) as [[[rest|e] g2] s2];
    [ rewrite app_nil_r | ]; reflexivity.
Qed.

(** The states a directory entry passes through before its listing is
    walked: line 51, and line 53 at the root. *)
Definition entered (r : bool) (g : globals) : list globals :=
  with_counters g (id_counter g + 1) (category_id_counter g)
  :: (if r then [with_counters g (id_counter g + 1) (category_id_counter g + 1)] else []).

Lemma scan_entry_traced_dir r p rel n sub g :
  scan_entry_traced strftime_dmY r p rel (FsDir n (Some sub)) g =
  match for_each_traced
          (scan_entry_traced strftime_dmY false
             (if r then PyInt (category_id_counter g) else p) (os_path.join rel n)) sub
          (with_counters g (id_counter g + 1)
             (if r then category_id_counter g + 1 else category_id_counter g)) with
  | ((Ok ch, g2), seen) =>
      ((Ok [dir_node r n (id_counter g)
              (if r then PyInt (category_id_counter g) else p) ch], g2),
       (entered r g ++ seen)%list)
  | ((Raise e, g2), seen) => ((Raise e, g2), (entered r g ++ seen)%list)
  end.
Proof.
  destruct g as [cs sd i c].
  destruct r; cbn [scan_entry_traced entry_name for_scandir_traced];
    unfold tbind, quiet, assigning, bind, with_counters, entered;
    cbn [read_category_id_counter read_id_counter set_id_counter set_category_id_counter
         ret categories storage_data id_counter category_id_counter snd app];
    match goal with
    | |- context [for_each_traced ?b sub ?g0] =>
        destruct (for_each_traced b sub g0) as [[[ch|e] g2] seen]
    end; cbn [app]; rewrite ?app_nil_r; reflexivity.
Qed.

Lemma scan_entry_traced_unlistable r p rel n g :
  scan_entry_traced strftime_dmY r p rel (FsDir n None) g =
  ((Raise OSError,
    with_counters g (id_counter g + 1)
      (if r then category_id_counter g + 1 else category_id_counter g)),
   entered r g).
Proof. destruct g as [cs sd i c]. destruct r; reflexivity. Qed.

Lemma scan_entry_exact_unlistable r p rel n g :
  scan_entry strftime_dmY r p rel (FsDir n None) g =
  (Raise OSError,
   with_counters g (id_counter g + 1)
     (if r then category_id_counter g + 1 else category_id_counter g)).
Proof. destruct g as [cs sd i c]. destruct r; reflexivity. Qed.

Lemma scan_entry_traced_file r p rel n st g :
  scan_entry_traced strftime_dmY r p rel (FsFile n (Some st)) g =
  ((Ok [file_node (strftime_dmY (st_ctime st)) p rel n st (id_counter g)],
    with_counters g (id_counter g + 1) (category_id_counter g)),
   [with_counters g (id_counter g + 1) (category_id_counter g)]).
Proof.
  destruct g as [cs sd i c].
  cbn. unfold tbind, quiet, assigning, file_node, file_type, file_url, with_counters; cbn.
  destruct (os_path.splitext n) as [fname fext]; reflexivity.
Qed.

Lemma loop_traced_other r p rel n l g :
  for_each_traced (scan_entry_traced strftime_dmY r p rel) (FsOther n :: l) g
  = for_each_traced (scan_entry_traced strftime_dmY r p rel) l g.
Proof.
  rewrite for_each_traced_cons. cbn [scan_entry_traced]. unfold quiet, ret.
  destruct (for_each_traced _ l g) as [[[rest|e] g3] s2]; reflexivity.
Qed.

Lemma frame_entered r g : Forall (frame g) (entered r g).
Proof.
  unfold entered. constructor; [ apply frame_with_counters | ].
  destruct r; constructor; [ apply frame_with_counters | constructor ].
Qed.

Lemma Forall_frame_from g h (l : list globals) :
  frame g h -> Forall (frame h) l -> Forall (frame g) l.
Proof.
  intros Hgh. apply Forall_impl. intros s Hs. eapply frame_trans; eassumption.
Qed.

Lemma loop_frame entries r p rel g :
  frame g (snd (for_each (scan_entry strftime_dmY r p rel) entries g)).
Proof.
  pose proof (loop_spec strftime_dmY entries r p rel g) as H.
  destruct (for_each _ entries g) as [[items|e] g']; cbn [snd]; apply H.
Qed.

(** The walk written with its assignments is the walk, and no state it
    passes through differs from the first in the published values. *)
Lemma loop_traced_spec : forall entries r p rel g,
  fst (for_each_traced (scan_entry_traced strftime_dmY r p rel) entries g)
  = for_each (scan_entry strftime_dmY r p rel) entries g
  /\ Forall (frame g)
            (snd (for_each_traced (scan_entry_traced strftime_dmY r p rel) entries g)).
Proof.
  induction entries as [| n sub l IHsub IHl | n l IHl | n st l IHl | n l IHl]
    using listing_ind; intros r p rel g.
  - split; [ reflexivity | constructor ].
  - rewrite for_each_traced_cons, scan_entry_traced_dir, loop_dir.
    set (cid := if r then PyInt (category_id_counter g) else p).
    set (g1 := with_counters g (id_counter g + 1)
                 (if r then category_id_counter g + 1 else category_id_counter g)).
    destruct (IHsub false cid (os_path.join rel n) g1) as [E1 F1].
    pose proof (loop_frame sub false cid (os_path.join rel n) g1) as Hg2.
    rewrite <- E1 in Hg2 |- *.
    assert (Hg1 : frame g g1) by apply frame_with_counters.
    destruct (for_each_traced _ sub g1) as [[[ch|e] g2] s1]; cbn [fst snd] in *.
    + destruct (IHl r p rel g2) as [E2 F2]. rewrite <- E2.
      destruct (for_each_traced _ l g2) as [[[rest|e] g3] s2]; cbn [fst snd] in *;
        (split; [ reflexivity | ]);
        rewrite !Forall_app; (split; [ split; [ apply frame_entered | ] | ]);
        try (eapply Forall_frame_from; [ exact Hg1 | exact F1 ]);
        (eapply Forall_frame_from; [ eapply frame_trans; [ exact Hg1 | exact Hg2 ] | exact F2 ]).
    + split; [ reflexivity | ].
      rewrite Forall_app. split; [ apply frame_entered | ].
      eapply Forall_frame_from; [ exact Hg1 | exact F1 ].
  - rewrite for_each_traced_cons, scan_entry_traced_unlistable.
    rewrite for_each_cons, scan_entry_exact_unlistable.
    split; [ reflexivity | apply frame_entered ].
  - destruct st as [st|].
    + rewrite for_each_traced_cons, scan_entry_traced_file, loop_file.
      set (g1 := with_counters g (id_counter g + 1) (category_id_counter g)).
      destruct (IHl r p rel g1) as [E2 F2]. rewrite <- E2.
      assert (Hg1 : frame g g1) by apply frame_with_counters.
      destruct (for_each_traced _ l g1) as [[[rest|e] g3] s2]; cbn [fst snd] in *;
        (split; [ reflexivity | ]);
        (constructor; [ exact Hg1 | ]);
        (eapply Forall_frame_from; [ exact Hg1 | exact F2 ]).
    + split; [ reflexivity | constructor ].
  - rewrite loop_traced_other, loop_other. apply IHl.
Qed.

Lemma scan_directory_traced_spec root r p rel g :
  fst (scan_directory_traced strftime_dmY root r p rel g)
  = scan_directory strftime_dmY root r p rel g
  /\ Forall (frame g) (snd (scan_directory_traced strftime_dmY root r p rel g)).
Proof.
  destruct root as [entries|].
  - apply loop_traced_spec.
  - split; [ reflexivity | constructor ].
Qed.

Lemma frame_observed g s : frame g s -> observed s = observed g.
Proof. unfold frame, observed. intros [-> ->]. reflexivity. Qed.

(** C5 (as amended). Each refresh operation assigns its own published
    value at most once, as its last assignment and with the completely
    built result. Of the states a reader can meet while
    [update_storage_data] runs, all but the last show the pair of tree and
    category list that was published before; the last one, which exists
    only when the walk has returned, shows the whole tree of that walk
    beside the former category list. It is the same for
    [update_categories]: its only assignment publishes the whole new list
    beside the former tree. Both are the operations the handlers run
    against, and the two values are published by separate operations. *)
Theorem refresh_assigns_whole_values root g :
  (fst (update_storage_data_traced strftime_dmY root g)
   = update_storage_data strftime_dmY root g
   /\ exists before after,
        snd (update_storage_data_traced strftime_dmY root g) = (before ++ after)%list
        /\ Forall (fun s => observed s = observed g) before
        /\ ((after = []
             /\ observed (run (update_storage_data strftime_dmY root) g) = observed g)
            \/ (exists tree g1,
                   scan_directory strftime_dmY root true PyNone "" (with_counters g 1 1)
                   = (Ok tree, g1)
                   /\ after = [run (update_storage_data strftime_dmY root) g]
                   /\ observed (run (update_storage_data strftime_dmY root) g)
                      = (tree, categories g))))
  /\ (fst (update_categories_traced root g) = update_categories root g
      /\ ((root = None
           /\ snd (update_categories_traced root g) = []
           /\ observed (run (update_categories root) g) = observed g)
          \/ (exists entries,
                 root = Some entries
                 /\ snd (update_categories_traced root g)
                    = [run (update_categories root) g]
                 /\ observed (run (update_categories root) g)
                    = (storage_data g,
                       map (fun p => Dict [("idCategory", PyInt (fst p + 1));
                                           ("textCategory", PyStr (snd p))] None)
                           (enumerate_from 0
                              (filter (os_path_isdir root) (map entry_name entries))))))).
Proof.
  split.
  - unfold run. rewrite update_storage_data_unfold.
    unfold update_storage_data_traced, tbind, try_except_traced, assigning.
    cbn [set_id_counter set_category_id_counter snd categories storage_data
         id_counter category_id_counter].
    change {| categories := categories g; storage_data := storage_data g;
              id_counter := 1; category_id_counter := 1 |} with (with_counters g 1 1).
    change {| categories := categories g; storage_data := storage_data g;
              id_counter := 1; category_id_counter := category_id_counter g |}
      with (with_counters g 1 (category_id_counter g)).
    destruct (scan_directory_traced_spec root true PyNone "" (with_counters g 1 1))
      as [E F].
    pose proof (scan_directory_spec strftime_dmY root true PyNone ""
                  (with_counters g 1 1)) as Hspec.
    rewrite <- E in Hspec |- *.
    destruct (scan_directory_traced strftime_dmY root true PyNone "" (with_counters g 1 1))
      as [[[tree|e] g1] seen]; cbn [fst snd] in *.
    + destruct Hspec as (entries & _ & _ & _ & Hc & Hsd).
      split; [ reflexivity | ].
      exists ([with_counters g 1 (category_id_counter g)] ++ [with_counters g 1 1] ++ seen)%list.
      eexists. split.
      { cbn [quiet print ret set_storage_data snd app]. reflexivity. }
      split.
      * constructor; [ reflexivity | ]. constructor; [ reflexivity | ].
        eapply Forall_impl; [ | exact F ].
        intros s Hs. apply frame_observed in Hs. exact Hs.
      * right. exists tree, g1. split; [ reflexivity | ].
        split; [ reflexivity | ].
        unfold observed; cbn [storage_data categories]. now rewrite Hc.
    + destruct Hspec as (_ & Hc & Hsd).
      split; [ reflexivity | ].
      exists ([with_counters g 1 (category_id_counter g)] ++ [with_counters g 1 1] ++ seen)%list,
             [].
      split; [ cbn [quiet print ret snd app]; rewrite ?app_nil_r; reflexivity | ].
      split.
      * constructor; [ reflexivity | ]. constructor; [ reflexivity | ].
        eapply Forall_impl; [ | exact F ].
        intros s Hs. apply frame_observed in Hs. exact Hs.
      * left. split; [ reflexivity | ].
        unfold observed. now rewrite Hc, Hsd.
  - destruct root as [entries|].
    + split; [ reflexivity | ].
      right. exists entries. repeat split.
    + split; [ reflexivity | ].
      left. repeat split.
Qed.

End Publication.

(** * Worked instances *)

Lemma example_root_distinct : NoDup (map entry_name example_root).
Proof. cbn. repeat constructor; cbn; intuition discriminate. Qed.

(** The tree of the instance: name, type, identifier, and the category
    carried under ['idCategory'] and under ['categoryId']. *)
Example example_tree_table :
  map (fun it => (get "name" it, get "type" it, get "id" it,
                  get "idCategory" it, get "categoryId" it, get "fileSize" it))
      (preorder example_tree)
  = [(Some (PyStr "Docs"), Some (PyStr "Category"), Some (PyInt 1),
      Some (PyInt 1), None, None);
     (Some (PyStr "report"), Some (PyStr "file"), Some (PyInt 2),
      None, Some (PyInt 1), Some (PyStr "1.91 MB"));
     (Some (PyStr "Drafts"), Some (PyStr "folder"), Some (PyInt 3),
      Some (PyInt 1), None, None);
     (Some (PyStr "v1"), Some (PyStr "file"), Some (PyInt 4),
      None, Some (PyInt 1), Some (PyStr "0.01 KB"));
     (Some (PyStr "top"), Some (PyStr "file"), Some (PyInt 5),
      None, Some PyNone, Some (PyStr "0.12 KB"));
     (Some (PyStr "B"), Some (PyStr "Category"), Some (PyInt 6),
      Some (PyInt 2), None, None);
     (Some (PyStr "y z"), Some (PyStr "file"), Some (PyInt 7),
      None, Some (PyInt 2), Some (PyStr "1.00 MB"))].
Proof. vm_compute. reflexivity. Qed.

(** C1, the claim as it reads: the category carried equals the ['id'] of
    the nearest Category ancestor. The file [B/y z] carries 2 while the
    Category [B] has the identifier 6, and no folder has a key
    ['categoryId']. *)
Lemma category_id_differs_from_node_id :
  forallb (inherits_item "id" "categoryId" None) example_tree = false
  /\ forallb (inherits_item "id" "idCategory" None) example_tree = false
  /\ map (fun it => (get "id" it, get "categoryId" it))
         (preorder (skipn 2 example_tree))
     = [(Some (PyInt 6), None); (Some (PyInt 7), Some (PyInt 2))]
  /\ get "categoryId" example_folder = None.
Proof. vm_compute. repeat split. Qed.

Lemma category_inherited_witness :
  readable example_root = true
  /\ forallb (inherits_item "idCategory" "idCategory" None)
             (storage_data (run (update_storage_data example_date (Some example_root)) initial))
     = true.
Proof.
  split; [ reflexivity | ].
  exact (category_inherited example_date example_root initial eq_refl).
Defined.

Lemma ids_follow_discovery_witness :
  readable example_root = true
  /\ map (get "id")
         (preorder (storage_data
                      (run (update_storage_data example_date (Some example_root)) initial)))
     = map (fun k => Some (PyInt (Z.of_nat k))) (seq 1 7).
Proof.
  split; [ reflexivity | ].
  exact (proj1 (ids_follow_discovery example_date example_root initial eq_refl)).
Defined.

Lemma failed_refresh_witness :
  readable_root (Some changed_root) = false
  /\ storage_data (run (update_storage_data example_date (Some changed_root)) example_state)
     = storage_data example_state
  /\ categories (run (update_storage_data example_date (Some changed_root)) example_state)
     = categories example_state.
Proof.
  split; [ reflexivity | ].
  exact (proj2 (proj1 (failed_refresh_keeps_published example_date (Some changed_root)
                         example_state) eq_refl)).
Defined.

(** C5, the claim as it reads: a reader sees the old pair or the new pair.
    Between the refresh of the category list and the refresh of the tree
    over the grown root, a reader gets the old tree with the new category
    list, which is neither pair; and when the refresh of the tree fails on
    the unreadable directory, that mix is what stays published. *)
Lemma old_tree_with_new_categories :
  observed (run (update_categories (Some grown_root)) example_state)
  = (fst (observed example_state),
     snd (observed (run (update_storage_data example_date (Some grown_root))
                        (run (update_categories (Some grown_root)) example_state))))
  /\ observed (run (update_categories (Some grown_root)) example_state)
     <> observed example_state
  /\ observed (run (update_categories (Some grown_root)) example_state)
     <> observed (run (update_storage_data example_date (Some grown_root))
                      (run (update_categories (Some grown_root)) example_state))
  /\ observed (run (update_storage_data example_date (Some changed_root))
                   (run (update_categories (Some changed_root)) example_state))
     = (storage_data example_state, category_entries ["Docs"; "B"; "New"]).
Proof.
  split; [ vm_compute; reflexivity | ].
  split; [ vm_compute; discriminate | ].
  split; [ vm_compute; discriminate | ].
  vm_compute; reflexivity.
Qed.

(** The states a reader can meet while the tree of the example root is
    built from the state of the loaded module: eleven that still show the
    empty tree, then the whole tree. Over the root with the unreadable
    directory, each of the thirteen states shows the tree published
    before. *)
Example refresh_trace_of_example_root :
  map storage_data
      (snd (update_storage_data_traced example_date (Some example_root) initial))
  = (repeat [] 11 ++ [example_tree])%list
  /\ map storage_data
         (snd (update_storage_data_traced example_date (Some changed_root) example_state))
     = repeat (storage_data example_state) 13.
Proof. split; vm_compute; reflexivity. Qed.



(** C7, the claim as it reads: the address is under ['fileUrl']. No File
    node has that key; the address is under ['filepath']. *)
Lemma file_nodes_have_no_fileUrl :
  existsb (has_field "fileUrl") (preorder example_tree) = false
  /\ map (get "fileUrl") (file_nodes example_tree) = [None; None; None; None]
  /\ map (get "filepath") (file_nodes example_tree)
     = [Some (PyStr "http://127.0.0.1:5000/files/storage/Docs/report.pdf");
        Some (PyStr "http://127.0.0.1:5000/files/storage/Docs/Drafts/v1.txt");
        Some (PyStr "http://127.0.0.1:5000/files/storage/top.txt");
        Some (PyStr "http://127.0.0.1:5000/files/storage/B/y%20z")].
Proof. vm_compute. repeat split. Qed.

Lemma file_nodes_carry_filepath_witness :
  readable example_root = true /\ well_named example_root = true
  /\ map (get "filepath")
         (file_nodes (storage_data
                        (run (update_storage_data example_date (Some example_root)) initial)))
     = map (fun path => Some (PyStr (BASE_URL ++ "/files/storage/" ++ quote path)))
           ["Docs/report.pdf"; "Docs/Drafts/v1.txt"; "top.txt"; "B/y z"].
Proof.
  split; [ reflexivity | split; [ reflexivity | ] ].
  exact (file_nodes_carry_filepath example_date example_root initial eq_refl eq_refl).
Defined.

(** C8, the claim as it reads: the objects have the fields ['idCategory']
    and ['name']. They have no key ['name']; the name is under
    ['textCategory']. *)
Lemma category_entries_have_no_name :
  get_categories example_state
  = JArray [Dict [("idCategory", PyInt 1); ("textCategory", PyStr "Docs")] None;
            Dict [("idCategory", PyInt 2); ("textCategory", PyStr "B")] None]
  /\ existsb (has_field "name") (categories example_state) = false
  /\ map (get "name") (categories example_state) = [None; None].
Proof. vm_compute. repeat split. Qed.

Lemma categories_listed_witness :
  get_categories (run (update_categories (Some example_root)) initial)
  = JArray [Dict [("idCategory", PyInt 1); ("textCategory", PyStr "Docs")] None;
            Dict [("idCategory", PyInt 2); ("textCategory", PyStr "B")] None].
Proof.
  exact (categories_listed example_root initial example_root_distinct).
Defined.

(** The Category node of the directory [B]. *)
Definition example_category : item :=
  Eval vm_compute in nth 5 (preorder example_tree) (Dict [] None).

Lemma lookup_returns_category_witness :
  exists cat,
    find_category
      (storage_data (run (update_storage_data example_date (Some example_root)) initial)) 1
    = Some cat
    /\ get_storage (Some 1) (run (update_storage_data example_date (Some example_root)) initial)
       = JObject cat
    /\ In cat (storage_data (run (update_storage_data example_date (Some example_root)) initial))
    /\ has_type "Category" cat = true
    /\ get "idCategory" cat = Some (PyInt 1)
    /\ has_type "folder" cat = false
    /\ has_type "file" cat = false
    /\ In example_folder (preorder_item cat)
    /\ (forall other,
          In other (top_categories
                      (storage_data
                         (run (update_storage_data example_date (Some example_root)) initial))) ->
          get "idCategory" other = Some (PyInt 1) -> other = cat)
    /\ (forall other,
          In other (top_categories
                      (storage_data
                         (run (update_storage_data example_date (Some example_root)) initial))) ->
          exists k',
            get "idCategory" other = Some (PyInt k')
            /\ find_category
                 (storage_data
                    (run (update_storage_data example_date (Some example_root)) initial)) k'
               = Some other).
Proof.
  apply (lookup_returns_category example_date example_root initial example_folder 1).
  - reflexivity.
  - vm_compute. right; right; left; reflexivity.
  - reflexivity.
Defined.

(** In the instance the lookup of 2 returns the Category node [B] itself,
    not the first Category node. *)
Example lookup_of_second_category :
  find_category example_tree 2 = Some example_category
  /\ get "name" example_category = Some (PyStr "B")
  /\ get "id" example_category = Some (PyInt 6).
Proof. vm_compute. repeat split. Qed.

Lemma category_ids_coincide_witness :
  exists node,
    nth_error (top_categories (storage_data example_state)) 1 = Some node
    /\ get "idCategory" (Dict [("idCategory", PyInt 2); ("textCategory", PyStr "B")] None)
       = Some (PyInt 2)
    /\ get "idCategory" node = Some (PyInt 2)
    /\ get "name" node
       = get "textCategory" (Dict [("idCategory", PyInt 2); ("textCategory", PyStr "B")] None)
    /\ get_storage (Some 2) example_state = JObject node.
Proof.
  exact (category_ids_coincide example_date example_root example_root initial 1%nat
           (Dict [("idCategory", PyInt 2); ("textCategory", PyStr "B")] None)
           example_root_distinct eq_refl eq_refl eq_refl).
Defined.

(** * Further properties of the indexer *)

Section Refresh.

Variable strftime_dmY : Z -> string.

Lemma with_counters_twice g i c i' c' :
  with_counters (with_counters g i c) i' c' = with_counters g i' c'.
Proof. reflexivity. Qed.

Lemma frame_shape g g' :
  frame g g' -> g' = with_counters g (id_counter g') (category_id_counter g').
Proof.
  destruct g as [cs sd i c], g' as [cs' sd' i' c']. unfold frame; cbn.
  intros [-> ->]. reflexivity.
Qed.

(** A walk reads the state only through the two counters. *)
Lemma loop_counters_only : forall entries r p rel g h,
  id_counter g = id_counter h ->
  category_id_counter g = category_id_counter h ->
  for_each (scan_entry strftime_dmY r p rel) entries h
  = (fst (for_each (scan_entry strftime_dmY r p rel) entries g),
     with_counters h
       (id_counter (snd (for_each (scan_entry strftime_dmY r p rel) entries g)))
       (category_id_counter (snd (for_each (scan_entry strftime_dmY r p rel) entries g)))).
Proof.
  induction entries as [| n sub l IHsub IHl | n l IHl | n st l IHl | n l IHl]
    using listing_ind; intros r p rel g h Ei Ec.
  - cbn. destruct h; cbn in *; subst; reflexivity.
  - rewrite !loop_dir. rewrite <- Ei, <- Ec.
    set (cid := if r then PyInt (category_id_counter g) else p).
    set (c1 := if r then category_id_counter g + 1 else category_id_counter g).
    rewrite (IHsub false cid (os_path.join rel n)
               (with_counters g (id_counter g + 1) c1)
               (with_counters h (id_counter g + 1) c1) eq_refl eq_refl).
    destruct (for_each _ sub (with_counters g _ _)) as [[ch|e] g2]; cbn [fst snd].
    + rewrite with_counters_twice.
      rewrite (IHl r p rel g2 (with_counters h (id_counter g2) (category_id_counter g2))
                 eq_refl eq_refl).
      destruct (for_each _ l g2) as [[rest|e] g3]; cbn [fst snd];
        rewrite with_counters_twice; reflexivity.
    + rewrite with_counters_twice. reflexivity.
  - destruct g as [cs sd i c], h as [cs' sd' i' c']; cbn in Ei, Ec; subst i' c'.
    destruct r; reflexivity.
  - destruct st as [st|].
    + rewrite !loop_file. rewrite <- Ei, <- Ec.
      rewrite (IHl r p rel (with_counters g (id_counter g + 1) (category_id_counter g))
                 (with_counters h (id_counter g + 1) (category_id_counter g))
                 eq_refl eq_refl).
      destruct (for_each _ l (with_counters g _ _)) as [[rest|e] g3]; cbn [fst snd];
        rewrite with_counters_twice; reflexivity.
    + rewrite !loop_unstatable. cbn [fst snd].
      destruct h; cbn in *; subst; reflexivity.
  - rewrite !loop_other. apply IHl; assumption.
Qed.

(** The scan of one pass, started from the state of the module at load
    time with both counters at 1. *)
Definition pass (root : option (list fsentry)) : outcome (list item) * globals :=
  scan_directory strftime_dmY root true PyNone "" (with_counters initial 1 1).

Lemma scan_directory_counters_only root r p rel g h :
  id_counter g = id_counter h ->
  category_id_counter g = category_id_counter h ->
  scan_directory strftime_dmY root r p rel h
  = (fst (scan_directory strftime_dmY root r p rel g),
     with_counters h
       (id_counter (snd (scan_directory strftime_dmY root r p rel g)))
       (category_id_counter (snd (scan_directory strftime_dmY root r p rel g)))).
Proof.
  intros Ei Ec. destruct root as [entries|].
  - apply loop_counters_only; assumption.
  - cbn. destruct g, h; cbn in *; subst; reflexivity.
Qed.

(** The state [update_storage_data] leaves, in terms of [pass]. *)
Lemma update_storage_data_shape root g :
  run (update_storage_data strftime_dmY root) g =
  match pass root with
  | (Ok tree, g1) =>
      {| categories := categories g; storage_data := tree;
         id_counter := id_counter g1; category_id_counter := category_id_counter g1 |}
  | (Raise _, g1) =>
      {| categories := categories g; storage_data := storage_data g;
         id_counter := id_counter g1; category_id_counter := category_id_counter g1 |}
  end.
Proof.
  unfold run, pass. rewrite update_storage_data_unfold.
  rewrite (scan_directory_counters_only root true PyNone ""
             (with_counters initial 1 1) (with_counters g 1 1) eq_refl eq_refl).
  destruct (scan_directory _ root true PyNone "" (with_counters initial 1 1))
    as [[tree|e] g1]; reflexivity.
Qed.

Lemma update_categories_shape root g :
  run (update_categories root) g =
  {| categories := match root with
                   | Some entries =>
                       map (fun p => Dict [("idCategory", PyInt (fst p + 1));
                                           ("textCategory", PyStr (snd p))] None)
                           (enumerate_from 0
                              (filter (os_path_isdir root) (map entry_name entries)))
                   | None => categories g
                   end;
     storage_data := storage_data g;
     id_counter := id_counter g;
     category_id_counter := category_id_counter g |}.
Proof. destruct root as [entries|]; destruct g; reflexivity. Qed.

(** X1. When a directory the walk would reach cannot be listed, or a file
    cannot be examined, [scan_directory] raises: it never returns a tree
    that leaves the unreadable part out. *)
Theorem unreadable_tree_raises root r p rel g :
  readable_root root = false ->
  exists e g', scan_directory strftime_dmY root r p rel g = (Raise e, g').
Proof.
  intros Hr.
  pose proof (scan_directory_spec strftime_dmY root r p rel g) as H.
  destruct (scan_directory _ root r p rel g) as [[items|e] g'].
  - destruct H as (entries & -> & Hr' & _). cbn in Hr. congruence.
  - eauto.
Qed.

(** X2. When the walk of [update_storage_data] returns, the operation
    publishes the tree the walk returned and leaves [id_counter] one more
    than the number of nodes of that tree, at any depth, and
    [category_id_counter] one more than the number of its Category
    nodes. *)
Theorem counters_after_pass root g tree g1 :
  scan_directory strftime_dmY root true PyNone "" (with_counters g 1 1) = (Ok tree, g1) ->
  storage_data (run (update_storage_data strftime_dmY root) g) = tree
  /\ id_counter (run (update_storage_data strftime_dmY root) g)
     = 1 + Z.of_nat (List.length (preorder tree))
  /\ category_id_counter (run (update_storage_data strftime_dmY root) g)
     = 1 + Z.of_nat (List.length (top_categories tree)).
Proof.
  intros E. unfold run. rewrite update_storage_data_unfold.
  pose proof (scan_directory_spec strftime_dmY root true PyNone ""
                (with_counters g 1 1)) as H.
  rewrite E in H |- *. cbn [snd storage_data id_counter category_id_counter].
  destruct H as (entries & _ & _ & Hs & _).
  cbn [with_counters id_counter category_id_counter] in Hs.
  destruct (Scanned_preorder _ _ _ _ _ _ _ _ _ _ Hs) as (Ei & _ & _).
  destruct (Scanned_root _ _ _ _ _ _ _ _ _ Hs) as (Ec & Elen & _).
  split; [ reflexivity | split; [ exact Ei | congruence ] ].
Qed.

(** X3. Refreshing the tree twice over the same root leaves the state the
    first refresh left, identifiers included, whether the walk returns or
    raises. *)
Theorem update_storage_data_idempotent root g :
  run (update_storage_data strftime_dmY root)
      (run (update_storage_data strftime_dmY root) g)
  = run (update_storage_data strftime_dmY root) g.
Proof.
  rewrite !update_storage_data_shape.
  destruct (pass root) as [[tree|e] g1]; reflexivity.
Qed.

(** X4. The two refresh operations commute: the state after both does not
    depend on which ran first. *)
Theorem refreshes_commute listed scanned g :
  run (update_categories listed) (run (update_storage_data strftime_dmY scanned) g)
  = run (update_storage_data strftime_dmY scanned) (run (update_categories listed) g).
Proof.
  rewrite !update_storage_data_shape, !update_categories_shape.
  destruct (pass scanned) as [[tree|e] g1]; reflexivity.
Qed.

(** X5. When the root can be listed but something below it cannot be read,
    the two refresh operations leave the new category list beside the tree
    that was published before. *)
Theorem stale_tree_beside_new_categories entries g :
  NoDup (map entry_name entries) ->
  readable entries = false ->
  categories (run (update_storage_data strftime_dmY (Some entries))
                  (run (update_categories (Some entries)) g))
  = category_entries (dir_names entries)
  /\ storage_data (run (update_storage_data strftime_dmY (Some entries))
                       (run (update_categories (Some entries)) g))
     = storage_data g.
Proof.
  intros Hnd Hr.
  destruct (failed_pass strftime_dmY (Some entries)
              (run (update_categories (Some entries)) g) Hr) as (g' & E & Hc & Hs).
  unfold run at 1 3. rewrite E. cbn [snd].
  rewrite Hc, Hs. split.
  - apply update_categories_spec, Hnd.
  - rewrite update_categories_shape. reflexivity.
Qed.

End Refresh.

Section Structure.

Variable strftime_dmY : Z -> string.

Lemma scan_entry_unlistable r p rel n g :
  exists g', scan_entry strftime_dmY r p rel (FsDir n None) g = (Raise OSError, g').
Proof.
  destruct g as [cs sd i c].
  destruct r; cbn; unfold bind; cbn; eexists; reflexivity.
Qed.

Lemma loop_prune : forall entries r p rel g,
  for_each (scan_entry strftime_dmY r p rel) (prune entries) g
  = for_each (scan_entry strftime_dmY r p rel) entries g.
Proof.
  induction entries as [| n sub l IHsub IHl | n l IHl | n st l IHl | n l IHl]
    using listing_ind; intros r p rel g.
  - reflexivity.
  - change (prune (FsDir n (Some sub) :: l)) with (FsDir n (Some (prune sub)) :: prune l).
    rewrite !loop_dir, IHsub.
    destruct (for_each _ sub _) as [[ch|e] g2]; [ | reflexivity ].
    rewrite IHl. reflexivity.
  - change (prune (FsDir n None :: l)) with (FsDir n None :: prune l).
    rewrite !for_each_cons.
    destruct (scan_entry_unlistable r p rel n g) as (g' & ->). reflexivity.
  - change (prune (FsFile n st :: l)) with (FsFile n st :: prune l).
    destruct st as [st|].
    + rewrite !loop_file, IHl. reflexivity.
    + rewrite !loop_unstatable. reflexivity.
  - change (prune (FsOther n :: l)) with (prune l).
    rewrite loop_other. apply IHl.
Qed.

(** X6. Entries that are neither directories nor files leave no trace: the
    walk returns, or raises, and moves the counters exactly as it does over
    the same tree without them. *)
Theorem others_leave_no_trace entries r p rel g :
  scan_directory strftime_dmY (Some (prune entries)) r p rel g
  = scan_directory strftime_dmY (Some entries) r p rel g.
Proof. apply loop_prune. Qed.

Lemma Scanned_typed r p rel i c entries items i' c' :
  Scanned strftime_dmY r p rel i c entries items i' c' ->
  forallb (typed_at_depth r) items = true.
Proof.
  induction 1 as [ r p rel i c
                 | r p rel i c n sub l ch rest i2 c2 i3 c3 Hsub IHsub Hl IHl
                 | r p rel i c n st l rest i3 c3 Hl IHl
                 | r p rel i c n l rest i3 c3 Hl IHl ].
  - reflexivity.
  - cbn [forallb]. rewrite IHl, andb_true_r.
    unfold dir_node. cbn [typed_at_depth]. rewrite IHsub, andb_true_r.
    destruct r; reflexivity.
  - cbn [forallb]. rewrite IHl, andb_true_r. reflexivity.
  - exact IHl.
Qed.

(** X7. In the tree of a scan pass the nodes at the top are Category nodes
    with children or file nodes without, and every node below is a folder
    node with children or a file node without: a Category is never nested
    and a folder never sits at the top. *)
Theorem node_types_follow_depth entries g :
  readable entries = true ->
  forallb (typed_at_depth true)
          (storage_data (run (update_storage_data strftime_dmY (Some entries)) g)) = true.
Proof.
  intros Hr.
  destruct (scan_pass strftime_dmY entries g Hr) as (tree & i' & c' & Hs & ->).
  cbn [storage_data]. eapply Scanned_typed, Hs.
Qed.

Lemma Scanned_tagged p rel i c entries items i' c' k :
  Scanned strftime_dmY false p rel i c entries items i' c' ->
  p = PyInt k ->
  forallb (tagged k) (preorder items) = true.
Proof.
  intros H. remember false as r eqn:Er. revert Er.
  induction H as [ r p rel i c
                 | r p rel i c n sub l ch rest i2 c2 i3 c3 Hsub IHsub Hl IHl
                 | r p rel i c n st l rest i3 c3 Hl IHl
                 | r p rel i c n l rest i3 c3 Hl IHl ];
    intros Er Ep; subst r p.
  - reflexivity.
  - unfold dir_node. rewrite preorder_node. cbn [forallb].
    rewrite forallb_app, (IHsub eq_refl eq_refl), (IHl eq_refl eq_refl).
    unfold tagged, has_type, get; cbn. now rewrite Z.eqb_refl.
  - unfold file_node. rewrite preorder_leaf. cbn [forallb].
    rewrite (IHl eq_refl eq_refl).
    unfold tagged, has_type, get; cbn. now rewrite Z.eqb_refl.
  - apply (IHl eq_refl eq_refl).
Qed.

(** Below every Category node at the top, all nodes carry its identifier. *)
Lemma Scanned_root_tagged p rel i c entries items i' c' :
  Scanned strftime_dmY true p rel i c entries items i' c' ->
  forall cat k, In cat items -> get "idCategory" cat = Some (PyInt k) ->
  exists ch, children_of cat = Some ch /\ forallb (tagged k) (preorder ch) = true.
Proof.
  intros H. remember true as r eqn:Er. revert Er.
  induction H as [ r p rel i c
                 | r p rel i c n sub l ch rest i2 c2 i3 c3 Hsub IHsub Hl IHl
                 | r p rel i c n st l rest i3 c3 Hl IHl
                 | r p rel i c n l rest i3 c3 Hl IHl ];
    intros Er cat k Hin Hk; subst r.
  - destruct Hin.
  - destruct Hin as [<- | Hin]; [ | eapply IHl; eauto ].
    exists ch. split; [ reflexivity | ].
    injection Hk as <-.
    eapply Scanned_tagged; [ exact Hsub | reflexivity ].
  - destruct Hin as [<- | Hin]; [ discriminate Hk | eapply IHl; eauto ].
  - eapply IHl; eauto.
Qed.

(** X8. After a scan pass over a root with [N] directories, asking
    [get_storage] for an integer below 1 or above [N] answers with the
    object [{'error': 'Category not found'}]. *)
Theorem lookup_outside_range entries g k :
  readable entries = true ->
  k < 1 \/ Z.of_nat (List.length (filter is_dir entries)) < k ->
  get_storage (Some k) (run (update_storage_data strftime_dmY (Some entries)) g)
  = not_found.
Proof.
  intros Hr Hk.
  destruct (scan_pass strftime_dmY entries g Hr) as (tree & i' & c' & Hs & ->).
  unfold get_storage; cbn [storage_data].
  destruct (Scanned_root _ _ _ _ _ _ _ _ _ Hs) as (Ec & _ & Hrange & _).
  unfold dir_names in Ec. rewrite length_map in Ec.
  rewrite find_category_preorder, find_none; [ reflexivity | ].
  intros x Hx. destruct (matches k x) eqn:Hm; [ | reflexivity ].
  specialize (Hrange k x Hx Hm). lia.
Qed.

(** X9. After a scan pass over a root with [N] directories, asking
    [get_storage] for an integer [k] from 1 to [N] answers with a node that
    has children, and every node below it is a folder carrying [k] under
    ['idCategory'] or a file carrying [k] under ['categoryId']. *)
Theorem lookup_in_range entries g k :
  readable entries = true ->
  1 <= k <= Z.of_nat (List.length (filter is_dir entries)) ->
  exists cat ch,
    get_storage (Some k) (run (update_storage_data strftime_dmY (Some entries)) g)
    = JObject cat
    /\ get "name" cat
       = option_map PyStr (nth_error (map entry_name (filter is_dir entries))
                                     (Z.to_nat (k - 1)))
    /\ children_of cat = Some ch
    /\ forallb (tagged k) (preorder ch) = true.
Proof.
  intros Hr Hk.
  destruct (scan_pass strftime_dmY entries g Hr) as (tree & i' & c' & Hs & ->).
  unfold get_storage; cbn [storage_data].
  destruct (Scanned_root _ _ _ _ _ _ _ _ _ Hs) as (_ & _ & _ & Hnth).
  fold (dir_names entries).
  assert (Hlen : (Z.to_nat (k - 1) < List.length (dir_names entries))%nat)
    by (unfold dir_names; rewrite length_map; lia).
  destruct (nth_error (dir_names entries) (Z.to_nat (k - 1))) as [name|] eqn:En;
    [ | apply nth_error_None in En; lia ].
  destruct (Hnth _ _ En) as (cat & _ & Hin & _ & Hid & Hname & Hfind).
  replace (1 + Z.of_nat (Z.to_nat (k - 1))) with k in Hid, Hfind by lia.
  destruct (Scanned_root_tagged _ _ _ _ _ _ _ _ Hs cat k Hin Hid) as (ch & Hch & Htag).
  exists cat, ch. rewrite find_category_preorder, Hfind.
  repeat split; assumption.
Qed.

End Structure.

Section Search.

(** X10. For any list of dictionaries, [find_category] returns a
    dictionary of the tree that carries the requested integer under
    ['idCategory'], and returns [None] exactly when no dictionary of the
    tree, at any depth, carries it. *)
Theorem find_category_sound_and_complete data k :
  (forall it, find_category data k = Some it ->
              In it (preorder data) /\ get "idCategory" it = Some (PyInt k))
  /\ (find_category data k = None <->
      forall it, In it (preorder data) -> get "idCategory" it <> Some (PyInt k)).
Proof.
  rewrite find_category_preorder. split.
  - intros it H. apply find_some in H. destruct H as [Hin Hm].
    split; [ exact Hin | apply matches_iff, Hm ].
  - split.
    + intros H it Hin Hk.
      apply matches_iff in Hk.
      rewrite (List.find_none _ _ H it Hin) in Hk. discriminate.
    + intros H. apply find_none. intros x Hx.
      destruct (matches k x) eqn:Hm; [ | reflexivity ].
      apply matches_iff in Hm. elim (H x Hx Hm).
Qed.

(** X11. The dictionary [find_category] returns for an integer is found
    again, itself, when [find_category] is given that dictionary in place of
    a list (the case of lines 27-28). *)
Theorem find_category_again data k it :
  find_category data k = Some it ->
  find_category_dict it k = Some it.
Proof.
  rewrite find_category_preorder. intros H.
  apply find_some in H. destruct H as [_ Hm].
  unfold find_category_dict, find_category. cbn [first_return].
  destruct it as [fs [ch|]].
  - rewrite find_category_step_node, Hm. reflexivity.
  - rewrite find_category_step_leaf, Hm. reflexivity.
Qed.

End Search.

Section Names.

Variable strftime_dmY : Z -> string.

Lemma rfind_bounds c s :
  os_path.rfind c s = -1
  \/ (0 <= os_path.rfind c s < Z.of_nat (String.length s)
      /\ String.get (Z.to_nat (os_path.rfind c s)) s = Some c).
Proof.
  induction s as [|a r IH]; [ left; reflexivity | ].
  cbn [os_path.rfind String.length].
  destruct (Z.leb_spec 0 (os_path.rfind c r)) as [Hi | Hi].
  - destruct IH as [IH | [Hb Hg]]; [ lia | ].
    right. split; [ lia | ].
    replace (Z.to_nat (os_path.rfind c r + 1)) with (S (Z.to_nat (os_path.rfind c r))) by lia.
    exact Hg.
  - destruct (Ascii.eqb_spec a c) as [-> | _].
    + right. split; [ lia | reflexivity ].
    + left; reflexivity.
Qed.

Lemma rfind_absent c s : has_char c s = false -> os_path.rfind c s = -1.
Proof.
  induction s as [|a r IH]; [ reflexivity | ].
  cbn [has_char os_path.rfind]. intros H.
  apply orb_false_iff in H. destruct H as [Ha Hr].
  rewrite (IH Hr), Ha. reflexivity.
Qed.

Lemma substring_whole s : substring 0 (String.length s) s = s.
Proof. induction s as [|c r IH]; [ reflexivity | cbn; now rewrite IH ]. Qed.

Lemma substring_split : forall s n,
  (n <= String.length s)%nat ->
  substring 0 n s ++ substring n (String.length s - n) s = s.
Proof.
  induction s as [|c r IH]; intros [|n] Hn; cbn in Hn; try lia.
  - reflexivity.
  - cbn [substring]. change (String.length (String c r) - 0)%nat with (S (String.length r)).
    cbn [substring append]. now rewrite substring_whole.
  - cbn [substring String.length Nat.sub append]. rewrite IH by lia. reflexivity.
Qed.

Lemma substring_from : forall s n c,
  String.get n s = Some c ->
  exists t, substring n (String.length s - n) s = String c t.
Proof.
  induction s as [|a r IH]; intros [|n] c Hg; cbn in Hg; try discriminate.
  - injection Hg as ->. cbn. eauto.
  - cbn [substring String.length Nat.sub]. apply IH, Hg.
Qed.

Lemma append_nil_r_local s : s ++ "" = s.
Proof. induction s as [|c r IH]; [ reflexivity | cbn; now rewrite IH ]. Qed.

Lemma rfind_lower c s : -1 <= os_path.rfind c s.
Proof. destruct (rfind_bounds c s) as [-> | [H _]]; lia. Qed.

(** [splitext] cuts a name in two parts that make it up again, and the
    second part is empty or starts with the dot. *)
Lemma splitext_parts p :
  fst (os_path.splitext p) ++ snd (os_path.splitext p) = p
  /\ (snd (os_path.splitext p) = ""
      \/ exists t, snd (os_path.splitext p) = String "."%char t).
Proof.
  unfold os_path.splitext.
  pose proof (rfind_lower os_path.sep p) as Hs.
  destruct (Z.ltb_spec (os_path.rfind os_path.sep p) (os_path.rfind "."%char p)) as [Hlt | _].
  - destruct (os_path.non_dot_within _ _ _).
    + destruct (rfind_bounds "."%char p) as [E | [Hb Hg]]; [ lia | ].
      cbn [fst snd]. split.
      * apply substring_split. lia.
      * right. apply substring_from, Hg.
    + cbn. split; [ apply append_nil_r_local | left; reflexivity ].
  - cbn. split; [ apply append_nil_r_local | left; reflexivity ].
Qed.

Lemma rfind_last c s :
  os_path.rfind c (s ++ String c "") = Z.of_nat (String.length s).
Proof.
  induction s as [|a r IH].
  - cbn. now rewrite Ascii.eqb_refl.
  - cbn [append os_path.rfind String.length]. rewrite IH.
    destruct (Z.leb_spec 0 (Z.of_nat (String.length r))); lia.
Qed.

Lemma has_char_app c s t : has_char c (s ++ t) = (has_char c s || has_char c t)%bool.
Proof.
  induction s as [|a r IH]; [ reflexivity | ].
  cbn. rewrite IH. apply orb_assoc.
Qed.

Lemma substring_prefix : forall s t, substring 0 (String.length s) (s ++ t) = s.
Proof.
  induction s as [|c r IH]; intros t.
  - destruct t; reflexivity.
  - cbn. now rewrite IH.
Qed.

Lemma substring_suffix : forall s t,
  substring (String.length s) (String.length t) (s ++ t) = t.
Proof.
  induction s as [|c r IH]; intros t.
  - apply substring_whole.
  - cbn. apply IH.
Qed.

Lemma length_app_string s t :
  String.length (s ++ t) = (String.length s + String.length t)%nat.
Proof. induction s as [|c r IH]; [ reflexivity | cbn; now rewrite IH ]. Qed.

Lemma splitext_no_dot n :
  has_char "."%char n = false -> os_path.splitext n = (n, "").
Proof.
  intros H. unfold os_path.splitext. rewrite (rfind_absent _ _ H).
  pose proof (rfind_lower os_path.sep n).
  destruct (Z.ltb_spec (os_path.rfind os_path.sep n) (-1)); [ lia | reflexivity ].
Qed.

Lemma splitext_hidden s :
  has_char "."%char s = false -> has_char "/"%char s = false ->
  os_path.splitext (String "."%char s) = (String "."%char s, "").
Proof.
  intros Hd Hs. unfold os_path.splitext.
  cbn [os_path.rfind]. unfold os_path.sep.
  rewrite (rfind_absent _ _ Hd), (rfind_absent _ _ Hs). reflexivity.
Qed.

Lemma splitext_trailing_dot s :
  s <> "" -> has_char "."%char s = false -> has_char "/"%char s = false ->
  os_path.splitext (s ++ ".") = (s, ".").
Proof.
  intros Hne Hd Hs. unfold os_path.splitext.
  change (s ++ ".") with (s ++ String "."%char "").
  rewrite rfind_last.
  assert (Hsep : os_path.rfind os_path.sep (s ++ String "."%char "") = -1).
  { apply rfind_absent. unfold os_path.sep. rewrite has_char_app, Hs. reflexivity. }
  rewrite Hsep.
  destruct (Z.ltb_spec (-1) (Z.of_nat (String.length s))); [ | lia ].
  change (-1 + 1) with 0. rewrite Z.sub_0_r, Nat2Z.id. change (Z.to_nat 0) with 0%nat.
  assert (Hnd : os_path.non_dot_within (s ++ String "."%char "") 0 (String.length s) = true).
  { destruct s as [|a r]; [ congruence | ].
    cbn [has_char] in Hd. apply orb_false_iff in Hd. destruct Hd as [Ha _].
    cbn [String.length os_path.non_dot_within append String.get]. now rewrite Ha. }
  rewrite Hnd. f_equal.
  - apply substring_prefix.
  - rewrite length_app_string.
    replace (String.length s + String.length (String "."%char "") - String.length s)%nat
      with (String.length (String "."%char "")) by lia.
    apply substring_suffix.
Qed.

Lemma file_node_fields date p rel n st i :
  get "name" (file_node date p rel n st i) = Some (PyStr (fst (os_path.splitext n)))
  /\ get "fileType" (file_node date p rel n st i) = Some (PyStr (file_type n)).
Proof. split; reflexivity. Qed.

Lemma rfind_before_last c a t :
  has_char c t = false ->
  os_path.rfind c (a ++ String c t) = Z.of_nat (String.length a).
Proof.
  intros Ht. induction a as [|x a IH].
  - cbn [append os_path.rfind String.length]. rewrite (rfind_absent c t Ht).
    cbn. now rewrite Ascii.eqb_refl.
  - cbn [append os_path.rfind String.length]. rewrite IH.
    destruct (Z.leb_spec 0 (Z.of_nat (String.length a))); lia.
Qed.

Lemma get_after_prefix : forall pre c rest,
  String.get (String.length pre) (pre ++ String c rest) = Some c.
Proof. induction pre as [|x pre IH]; intros c rest; [ reflexivity | apply IH ]. Qed.

Lemma non_dot_within_prefix : forall a pre rest,
  os_path.non_dot_within (pre ++ a ++ rest) (String.length pre) (String.length a)
  = negb (all_dots a).
Proof.
  induction a as [|c a IH]; intros pre rest; [ reflexivity | ].
  cbn [String.length os_path.non_dot_within append].
  rewrite get_after_prefix. unfold all_dots. cbn [string_forall].
  destruct (Ascii.eqb_spec c "."%char) as [-> | _]; [ | reflexivity ].
  cbn [andb].
  specialize (IH (pre ++ String "."%char "") rest).
  rewrite append_assoc_local in IH. cbn [append] in IH.
  rewrite length_app_string in IH. cbn [String.length] in IH.
  replace (String.length pre + 1)%nat with (S (String.length pre)) in IH by lia.
  exact IH.
Qed.

(** [splitext] on a name cut at its last dot. *)
Lemma splitext_at_last_dot a t :
  has_char "."%char t = false ->
  has_char "/"%char (a ++ "." ++ t) = false ->
  os_path.splitext (a ++ "." ++ t)
  = if all_dots a then (a ++ "." ++ t, "") else (a, "." ++ t).
Proof.
  intros Ht Hs. unfold os_path.splitext.
  change (a ++ "." ++ t) with (a ++ String "."%char t) in *.
  rewrite (rfind_before_last "."%char a t Ht).
  unfold os_path.sep. rewrite (rfind_absent _ _ Hs).
  destruct (Z.ltb_spec (-1) (Z.of_nat (String.length a))); [ | lia ].
  change (-1 + 1) with 0. rewrite Z.sub_0_r, Nat2Z.id. change (Z.to_nat 0) with 0%nat.
  pose proof (non_dot_within_prefix a "" (String "."%char t)) as Hnd.
  cbn [append String.length] in Hnd. rewrite Hnd.
  destruct (all_dots a); cbn [negb]; [ reflexivity | ].
  f_equal.
  - apply substring_prefix.
  - rewrite length_app_string.
    replace (String.length a + String.length (String "."%char t) - String.length a)%nat
      with (String.length (String "."%char t)) by lia.
    apply substring_suffix.
Qed.

(** Every name that holds a dot is cut by its last dot. *)
Lemma last_dot_cut n :
  has_char "."%char n = true ->
  exists a t, n = a ++ "." ++ t /\ has_char "."%char t = false.
Proof.
  induction n as [|c n IH]; [ discriminate | ].
  cbn [has_char]. intros H.
  destruct (has_char "."%char n) eqn:Hn.
  - destruct (IH eq_refl) as (a & t & -> & Ht).
    exists (String c a), t. split; [ reflexivity | exact Ht ].
  - rewrite orb_false_r in H. apply Ascii.eqb_eq in H. subst c.
    exists "", n. split; [ reflexivity | exact Hn ].
Qed.

(** X12. A file name is cut at its last dot: for [a.t] where [t] holds no
    dot, the node carries the name [a] and the file type [t] when [a] holds
    a character other than the dot, as [report] and [pdf] for
    [report.pdf]; when [a] is empty or made of dots only the node keeps
    the whole name and the file type is ['unknown']. Every name that holds
    a dot is of that form, and in every case the name, with a dot and the
    file type unless the name is kept whole, makes up the entry name
    again. *)
Theorem file_name_and_type r p rel st g a t :
  has_char "."%char t = false ->
  has_char "/"%char (a ++ "." ++ t) = false ->
  (exists it g',
      scan_entry strftime_dmY r p rel (FsFile (a ++ "." ++ t) (Some st)) g = (Ok [it], g')
      /\ get "name" it = Some (PyStr (if all_dots a then a ++ "." ++ t else a))
      /\ get "fileType" it = Some (PyStr (if all_dots a then "unknown" else t)))
  /\ (forall n, has_char "."%char n = true ->
                exists a' t', n = a' ++ "." ++ t' /\ has_char "."%char t' = false)
  /\ (forall n,
        exists it g' a' t',
          scan_entry strftime_dmY r p rel (FsFile n (Some st)) g = (Ok [it], g')
          /\ get "name" it = Some (PyStr a')
          /\ get "fileType" it = Some (PyStr t')
          /\ (n = a' ++ "." ++ t' \/ (n = a' /\ t' = "unknown"))).
Proof.
  intros Ht Hs. split; [ | split ].
  - rewrite scan_entry_file. eexists. eexists. split; [ reflexivity | ].
    match goal with
    | |- context [file_node ?d ?p ?rel ?n ?st ?i] =>
        destruct (file_node_fields d p rel n st i) as [-> ->]
    end.
    unfold file_type. rewrite (splitext_at_last_dot a t Ht Hs).
    destruct (all_dots a); split; reflexivity.
  - apply last_dot_cut.
  - intros n. rewrite scan_entry_file.
    eexists. eexists. exists (fst (os_path.splitext n)), (file_type n).
    split; [ reflexivity | ].
    destruct (file_node_fields (strftime_dmY (st_ctime st)) p rel n st (id_counter g))
      as [-> ->].
    split; [ reflexivity | split; [ reflexivity | ] ].
    destruct (splitext_parts n) as [Hcat [He | [t' He]]]; unfold file_type; rewrite He in *.
    + right. rewrite append_nil_r_local in Hcat. split; [ now symmetry | reflexivity ].
    + left. symmetry. exact Hcat.
Qed.

(** X13. For a stem [s] without dot and separator: the file [s] and the
    hidden file [.s] keep their whole name and get the file type
    ['unknown']; the file [s.] gets the name [s] and the empty file type. *)
Theorem file_type_edges r p rel st g s :
  s <> "" ->
  has_char "."%char s = false ->
  has_char "/"%char s = false ->
  (exists it g',
      scan_entry strftime_dmY r p rel (FsFile s (Some st)) g = (Ok [it], g')
      /\ get "name" it = Some (PyStr s)
      /\ get "fileType" it = Some (PyStr "unknown"))
  /\ (exists it g',
         scan_entry strftime_dmY r p rel (FsFile (String "."%char s) (Some st)) g
         = (Ok [it], g')
         /\ get "name" it = Some (PyStr (String "."%char s))
         /\ get "fileType" it = Some (PyStr "unknown"))
  /\ (exists it g',
         scan_entry strftime_dmY r p rel (FsFile (s ++ ".") (Some st)) g = (Ok [it], g')
         /\ get "name" it = Some (PyStr s)
         /\ get "fileType" it = Some (PyStr "")).
Proof.
  intros Hne Hd Hs.
  split; [ | split ]; rewrite scan_entry_file; eexists; eexists;
    (split; [ reflexivity | ]);
    match goal with
    | |- context [file_node ?d ?p ?rel ?n ?st ?i] =>
        destruct (file_node_fields d p rel n st i) as [-> ->]
    end; unfold file_type.
  - rewrite (splitext_no_dot s Hd). split; reflexivity.
  - rewrite (splitext_hidden s Hd Hs). split; reflexivity.
  - rewrite (splitext_trailing_dot s Hne Hd Hs). split; reflexivity.
Qed.

End Names.

Section Addresses.

Variable strftime_dmY : Z -> string.

Lemma string_forall_app f s t :
  string_forall f (s ++ t) = (string_forall f s && string_forall f t)%bool.
Proof.
  induction s as [|c r IH]; [ reflexivity | ].
  cbn. rewrite IH. apply andb_assoc.
Qed.

Lemma quote_byte_url_chars c : string_forall url_char (quote_byte c) = true.
Proof. destruct c as [[] [] [] [] [] [] [] []]; vm_compute; reflexivity. Qed.

Lemma quote_url_chars s : string_forall url_char (quote s) = true.
Proof.
  induction s as [|c r IH]; [ reflexivity | ].
  cbn [quote]. now rewrite string_forall_app, quote_byte_url_chars, IH.
Qed.

(** Reading back the first byte of a quoted string. *)
Definition hex_value (c : ascii) : option N :=
  let n := N_of_ascii c in
  if (N.leb 48 n && N.leb n 57)%bool then Some (n - 48)%N
  else if (N.leb 65 n && N.leb n 70)%bool then Some (n - 55)%N
  else None.

Definition unquote_head (s : string) : option (ascii * string) :=
  match s with
  | EmptyString => None
  | String c rest =>
      if Ascii.eqb c "%"%char then
        match rest with
        | String h (String l rest') =>
            match hex_value h, hex_value l with
            | Some a, Some b => Some (ascii_of_N (16 * a + b), rest')
            | _, _ => None
            end
        | _ => None
        end
      else Some (c, rest)
  end.

Lemma unquote_head_quote_byte c rest :
  unquote_head (quote_byte c ++ rest) = Some (c, rest).
Proof. destruct c as [[] [] [] [] [] [] [] []]; reflexivity. Qed.

Lemma quote_injective : forall a b, quote a = quote b -> a = b.
Proof.
  induction a as [|c a IH]; intros [|d b] H.
  - reflexivity.
  - apply (f_equal unquote_head) in H. cbn [quote] in H.
    rewrite unquote_head_quote_byte in H. discriminate.
  - apply (f_equal unquote_head) in H. cbn [quote] in H.
    rewrite unquote_head_quote_byte in H. discriminate.
  - apply (f_equal unquote_head) in H. cbn [quote] in H.
    rewrite !unquote_head_quote_byte in H.
    injection H as -> H. now rewrite (IH b H).
Qed.

Lemma append_cancel_l : forall a x y : string, a ++ x = a ++ y -> x = y.
Proof.
  induction a as [|c a IH]; intros x y H; [ exact H | ].
  cbn in H. injection H as H. apply IH, H.
Qed.

Lemma file_node_filepath date p rel n st i :
  get "filepath" (file_node date p rel n st i)
  = Some (PyStr (BASE_URL ++ "/files/storage/" ++ quote (os_path.join rel n))).
Proof.
  change (get "filepath" (file_node date p rel n st i))
    with (Some (PyStr (file_url (os_path.join rel n)))).
  unfold file_url. now rewrite replace_char_same.
Qed.

(** X14. The address a file node carries is the base address and
    [/files/storage/] followed by a string made only of letters, digits,
    the characters [_.-~], slashes and percent signs. *)
Theorem file_address_characters r p rel n st g it g' :
  scan_entry strftime_dmY r p rel (FsFile n (Some st)) g = (Ok [it], g') ->
  exists u,
    get "filepath" it = Some (PyStr (BASE_URL ++ "/files/storage/" ++ u))
    /\ string_forall url_char u = true.
Proof.
  rewrite scan_entry_file. intros [= <- _].
  exists (quote (os_path.join rel n)).
  split; [ apply file_node_filepath | apply quote_url_chars ].
Qed.

(** X15. Two file nodes carry the same address only when the relative
    paths of their files are the same: quoting loses nothing. *)
Theorem file_address_determines_path r1 p1 rel1 n1 st1 g1 r2 p2 rel2 n2 st2 g2
    it1 it2 h1 h2 :
  scan_entry strftime_dmY r1 p1 rel1 (FsFile n1 (Some st1)) g1 = (Ok [it1], h1) ->
  scan_entry strftime_dmY r2 p2 rel2 (FsFile n2 (Some st2)) g2 = (Ok [it2], h2) ->
  get "filepath" it1 = get "filepath" it2 ->
  os_path.join rel1 n1 = os_path.join rel2 n2.
Proof.
  rewrite !scan_entry_file. intros [= <- _] [= <- _].
  rewrite !file_node_filepath. intros [= H].
  apply quote_injective. exact H.
Qed.

(** X16. The number a size is rendered with runs from 0.00 to 1024.00
    under the label [KB] and is at least 1.00 under [MB]; it is 0.00 exactly
    for the files of fewer than 6 bytes. *)
Theorem file_size_range S :
  0 <= S ->
  exists c,
    file_size S = two_decimals c ++ " " ++ (if S <? 1048576 then "KB" else "MB")
    /\ (S < 1048576 -> 0 <= c <= 102400)
    /\ (1048576 <= S -> 100 <= c)
    /\ (c = 0 <-> S <= 5).
Proof.
  intros H0.
  exists (round_half_even (100 * to_binary64 S) (if S <? 1048576 then 1024 else 1048576)).
  split; [ apply file_size_cases | ].
  destruct (Z.ltb_spec S 1048576) as [Hlt | Hge].
  - assert (E : to_binary64 S = S).
    { apply to_binary64_exact; [ exact H0 | ]. change (2 ^ 53) with 9007199254740992. lia. }
    rewrite E.
    pose proof (round_half_even_bound (100 * S) 1024 ltac:(lia)) as B.
    pose proof (round_half_even_nonneg (100 * S) 1024 ltac:(lia) ltac:(lia)) as N.
    repeat split; lia.
  - pose proof (round_half_even_bound (100 * to_binary64 S) 1048576 ltac:(lia)) as B.
    assert (Hb : 1048576 <= to_binary64 S).
    { unfold to_binary64.
      destruct (Z.leb_spec (Z.log2 S - 52) 0) as [_ | Hs]; [ exact Hge | ].
      assert (Hp : 0 < 2 ^ (Z.log2 S - 52)) by (apply Z.pow_pos_nonneg; lia).
      pose proof (round_half_even_bound S (2 ^ (Z.log2 S - 52)) Hp) as B'.
      assert (Hl : 2 ^ Z.log2 S <= S) by (apply Z.log2_spec; lia).
      assert (Hpow : 2 ^ Z.log2 S = 2 ^ 52 * 2 ^ (Z.log2 S - 52)).
      { rewrite <- Z.pow_add_r by lia. f_equal. lia. }
      change (2 ^ 52) with 4503599627370496 in Hpow.
      nia. }
    repeat split; lia.
Qed.

End Addresses.

(** * Properties of the accounts *)

Section AccountProperties.

Variable generate_password_hash : string -> string -> string.
Variable check_password_hash : string -> option string -> result bool.

Lemma login_taken_iff db l :
  existsb (fun u => String.eqb (user_login u) l) db = true <-> In l (map user_login db).
Proof.
  rewrite existsb_exists, in_map_iff. split.
  - intros (u & Hin & E). apply String.eqb_eq in E. eauto.
  - intros (u & E & Hin). exists u. split; [ exact Hin | now apply String.eqb_eq ].
Qed.

Lemma login_free_find db l :
  ~ In l (map user_login db) ->
  find (fun u => String.eqb (user_login u) l) db = None.
Proof.
  intros Hn. apply find_none. intros u Hin.
  destruct (String.eqb_spec (user_login u) l) as [E | _]; [ | reflexivity ].
  exfalso. apply Hn. rewrite <- E. apply in_map, Hin.
Qed.

(** The row [register] inserts for a body. *)
Definition new_row (data : list (string * option string)) (salt_token salt_password : string)
    (db : list user) (l p n s : string) : user :=
  mkUser (next_id db) l (generate_password_hash salt_password p) n s
         match lookup "post" data with Some v => v | None => None end
         (generate_password_hash salt_token (l ++ p ++ n ++ s)).

(** [register] on a body that holds the four required strings. *)
Lemma register_complete data salt_token salt_password db l p n s :
  lookup "login" data = Some (Some l) ->
  lookup "password" data = Some (Some p) ->
  lookup "name" data = Some (Some n) ->
  lookup "surname" data = Some (Some s) ->
  register generate_password_hash data salt_token salt_password db =
  if existsb (fun u => String.eqb (user_login u) l) db then
    (Returned (mkResponse 409 [("msg", PyStr "User with this login already exists")]), db)
  else
    (Returned (mkResponse 201
                 [("msg", PyStr "User registered successfully");
                  ("token", PyStr (generate_password_hash salt_token (l ++ p ++ n ++ s)))]),
     (db ++ [new_row data salt_token salt_password db l p n s])%list).
Proof.
  intros Hl Hp Hn Hs. unfold register, has_key. cbn [forallb].
  rewrite Hl, Hp, Hn, Hs. cbn [andb negb].
  destruct (existsb _ db); reflexivity.
Qed.

(** The cases of [register]. *)
Lemma register_cases data salt_token salt_password db :
  (snd (register generate_password_hash data salt_token salt_password db) = db
   /\ forall r, fst (register generate_password_hash data salt_token salt_password db)
                = Returned r -> status r <> 201)
  \/ (exists l p n s,
        lookup "login" data = Some (Some l)
        /\ lookup "password" data = Some (Some p)
        /\ lookup "name" data = Some (Some n)
        /\ lookup "surname" data = Some (Some s)
        /\ ~ In l (map user_login db)
        /\ register generate_password_hash data salt_token salt_password db
           = (Returned (mkResponse 201
                          [("msg", PyStr "User registered successfully");
                           ("token", PyStr (generate_password_hash salt_token
                                              (l ++ p ++ n ++ s)))]),
              (db ++ [mkUser (next_id db) l (generate_password_hash salt_password p) n s
                             match lookup "post" data with Some v => v | None => None end
                             (generate_password_hash salt_token (l ++ p ++ n ++ s))])%list)).
Proof.
  destruct (lookup "login" data) as [[l|]|] eqn:Hl;
    destruct (lookup "password" data) as [[p|]|] eqn:Hp;
    destruct (lookup "name" data) as [[n|]|] eqn:Hn;
    destruct (lookup "surname" data) as [[s|]|] eqn:Hs;
    try (left; unfold register, has_key; cbn [forallb]; rewrite ?Hl, ?Hp, ?Hn, ?Hs;
         cbn; split; [ reflexivity | intros r [= <-]; cbn; lia || discriminate ]);
    try (left; unfold register, has_key; cbn [forallb]; rewrite ?Hl, ?Hp, ?Hn, ?Hs;
         cbn; split; [ reflexivity | intros r [=] ]).
  rewrite (register_complete data salt_token salt_password db l p n s Hl Hp Hn Hs).
  destruct (existsb _ db) eqn:E.
  - left. cbn. split; [ reflexivity | intros r [= <-]; cbn; lia ].
  - right. exists l, p, n, s. repeat split; try reflexivity.
    intros Hin. apply login_taken_iff in Hin. congruence.
Qed.

Lemma register_missing data salt_token salt_password db field :
  In field ["login"; "password"; "name"; "surname"] ->
  lookup field data = None ->
  register generate_password_hash data salt_token salt_password db
  = (Returned (mkResponse 400 [("msg", PyStr "Missing required fields")]), db).
Proof.
  intros Hin Hnone. unfold register.
  assert (E : forallb (fun f => has_key f data) ["login"; "password"; "name"; "surname"]
              = false).
  { destruct (forallb _ _) eqn:F; [ | reflexivity ].
    rewrite forallb_forall in F. specialize (F field Hin).
    unfold has_key in F. rewrite Hnone in F. discriminate. }
  rewrite E. reflexivity.
Qed.

Lemma register_null data salt_token salt_password db l p n s :
  lookup "login" data = Some l ->
  lookup "password" data = Some p ->
  lookup "name" data = Some n ->
  lookup "surname" data = Some s ->
  l = None \/ p = None \/ n = None \/ s = None ->
  register generate_password_hash data salt_token salt_password db
  = (Raised TypeError, db).
Proof.
  intros Hl Hp Hn Hs Hnull. unfold register, has_key. cbn [forallb].
  rewrite Hl, Hp, Hn, Hs. cbn [andb negb].
  destruct l, p, n, s; try reflexivity.
  destruct Hnull as [H | [H | [H | H]]]; discriminate.
Qed.

(** X17. What [register] answers and does to the table, case by case. A
    body with the four required strings and a login the table does not
    hold: 201 with the token, and one row appended, holding the next
    identifier, the login, the hash of the password, the names, the post
    and the token. The same with a login the table holds: 409 and the
    table as it was. A required key missing: 400 and the table as it was.
    The four keys present and one of the values [null]: [TypeError] and the
    table as it was. So the table changes in the first case only, then by
    one appended row. *)
Theorem register_appends_or_keeps data salt_token salt_password db :
  (forall l p n s,
      lookup "login" data = Some (Some l) ->
      lookup "password" data = Some (Some p) ->
      lookup "name" data = Some (Some n) ->
      lookup "surname" data = Some (Some s) ->
      ~ In l (map user_login db) ->
      register generate_password_hash data salt_token salt_password db
      = (Returned (mkResponse 201
                     [("msg", PyStr "User registered successfully");
                      ("token", PyStr (generate_password_hash salt_token
                                         (l ++ p ++ n ++ s)))]),
         (db ++ [mkUser (next_id db) l (generate_password_hash salt_password p) n s
                        match lookup "post" data with Some v => v | None => None end
                        (generate_password_hash salt_token (l ++ p ++ n ++ s))])%list))
  /\ (forall l p n s,
        lookup "login" data = Some (Some l) ->
        lookup "password" data = Some (Some p) ->
        lookup "name" data = Some (Some n) ->
        lookup "surname" data = Some (Some s) ->
        In l (map user_login db) ->
        register generate_password_hash data salt_token salt_password db
        = (Returned (mkResponse 409
                       [("msg", PyStr "User with this login already exists")]), db))
  /\ (forall field,
        In field ["login"; "password"; "name"; "surname"] ->
        lookup field data = None ->
        register generate_password_hash data salt_token salt_password db
        = (Returned (mkResponse 400 [("msg", PyStr "Missing required fields")]), db))
  /\ (forall l p n s,
        lookup "login" data = Some l ->
        lookup "password" data = Some p ->
        lookup "name" data = Some n ->
        lookup "surname" data = Some s ->
        l = None \/ p = None \/ n = None \/ s = None ->
        register generate_password_hash data salt_token salt_password db
        = (Raised TypeError, db))
  /\ ((snd (register generate_password_hash data salt_token salt_password db) = db
       /\ forall r, fst (register generate_password_hash data salt_token salt_password db)
                    = Returned r -> status r <> 201)
      \/ (exists l p n s,
            lookup "login" data = Some (Some l)
            /\ lookup "password" data = Some (Some p)
            /\ lookup "name" data = Some (Some n)
            /\ lookup "surname" data = Some (Some s)
            /\ ~ In l (map user_login db)
            /\ register generate_password_hash data salt_token salt_password db
               = (Returned (mkResponse 201
                              [("msg", PyStr "User registered successfully");
                               ("token", PyStr (generate_password_hash salt_token
                                                  (l ++ p ++ n ++ s)))]),
                  (db ++ [mkUser (next_id db) l (generate_password_hash salt_password p) n s
                                 match lookup "post" data with Some v => v | None => None end
                                 (generate_password_hash salt_token
                                    (l ++ p ++ n ++ s))])%list))).
Proof.
  split; [ | split; [ | split; [ | split ] ] ].
  - intros l p n s Hl Hp Hn Hs Hfree.
    rewrite (register_complete data salt_token salt_password db l p n s Hl Hp Hn Hs).
    destruct (existsb _ db) eqn:E; [ apply login_taken_iff in E; contradiction | ].
    reflexivity.
  - intros l p n s Hl Hp Hn Hs Htaken.
    rewrite (register_complete data salt_token salt_password db l p n s Hl Hp Hn Hs).
    apply login_taken_iff in Htaken. rewrite Htaken. reflexivity.
  - apply register_missing.
  - apply register_null.
  - apply register_cases.
Qed.

Lemma NoDup_snoc {A : Type} (l : list A) x : NoDup l -> ~ In x l -> NoDup (l ++ [x]).
Proof.
  intros Hl Hx. induction l as [|a l IH]; cbn.
  - constructor; [ intros [] | constructor ].
  - inversion Hl as [|a' l' Ha Hl']; subst. constructor.
    + intros Hin. apply in_app_or in Hin. destruct Hin as [Hin | [-> | []]].
      * contradiction.
      * apply Hx. left; reflexivity.
    + apply IH; [ exact Hl' | intros Hin; apply Hx; right; exact Hin ].
Qed.

Lemma next_id_above db u : In u db -> user_id u < next_id db.
Proof.
  unfold next_id. induction db as [|v db IH]; intros []; cbn [fold_right].
  - subst. lia.
  - specialize (IH H). lia.
Qed.

(** X18. [register] keeps the logins of the table distinct and its
    identifiers distinct. *)
Theorem register_keeps_rows_distinct data salt_token salt_password db :
  NoDup (map user_login db) ->
  NoDup (map user_id db) ->
  NoDup (map user_login
             (snd (register generate_password_hash data salt_token salt_password db)))
  /\ NoDup (map user_id
                (snd (register generate_password_hash data salt_token salt_password db))).
Proof.
  intros Hl Hi.
  destruct (register_cases data salt_token salt_password db)
    as [[-> _] | (l & p & n & s & _ & _ & _ & _ & Hfree & ->)].
  - split; assumption.
  - cbn [snd]. rewrite !map_app. cbn [map user_login user_id]. split.
    + apply NoDup_snoc; assumption.
    + apply NoDup_snoc; [ exact Hi | ].
      intros Hin. apply in_map_iff in Hin. destruct Hin as (u & E & Hu).
      pose proof (next_id_above db u Hu). lia.
Qed.

(** X19. After [register] has answered 201 for a login the table did not
    hold, [login] with that login and that password answers 200 with the
    identifier, the names, the post and the token of the row just inserted,
    provided [check_password_hash] accepts the password against the hash
    [generate_password_hash] made of it. *)
Theorem register_then_login data salt_token salt_password db l p n s credentials :
  lookup "login" data = Some (Some l) ->
  lookup "password" data = Some (Some p) ->
  lookup "name" data = Some (Some n) ->
  lookup "surname" data = Some (Some s) ->
  ~ In l (map user_login db) ->
  check_password_hash (generate_password_hash salt_password p) (Some p) = Returned true ->
  lookup "login" credentials = Some (Some l) ->
  lookup "password" credentials = Some (Some p) ->
  fst (register generate_password_hash data salt_token salt_password db)
  = Returned (mkResponse 201
                [("msg", PyStr "User registered successfully");
                 ("token", PyStr (generate_password_hash salt_token (l ++ p ++ n ++ s)))])
  /\ login check_password_hash credentials
           (snd (register generate_password_hash data salt_token salt_password db))
     = Returned (mkResponse 200
                   [("id", PyInt (next_id db));
                    ("login", PyStr l);
                    ("name", PyStr n);
                    ("surname", PyStr s);
                    ("post", scalar_of_option
                               match lookup "post" data with Some v => v | None => None end);
                    ("token", PyStr (generate_password_hash salt_token (l ++ p ++ n ++ s)))]).
Proof.
  intros Hl Hp Hn Hs Hfree Hcheck Hcl Hcp.
  rewrite (register_complete data salt_token salt_password db l p n s Hl Hp Hn Hs).
  destruct (existsb _ db) eqn:E; [ apply login_taken_iff in E; contradiction | ].
  cbn [fst snd]. split; [ reflexivity | ].
  unfold login. rewrite Hcl, Hcp. unfold select_by_login.
  rewrite find_over_app, (login_free_find db l Hfree).
  unfold new_row. cbn [find user_login]. rewrite String.eqb_refl.
  cbn [user_password]. rewrite Hcheck. reflexivity.
Qed.

(** X20. Once [register] has answered 201 for a login, a further
    [register] with the same login and any three other strings answers 409
    and leaves the table, the row of the first registration included. *)
Theorem second_registration_refused first second salt1 salt2 salt3 salt4 db r l p n s :
  fst (register generate_password_hash first salt1 salt2 db) = Returned r ->
  status r = 201 ->
  lookup "login" first = Some (Some l) ->
  lookup "login" second = Some (Some l) ->
  lookup "password" second = Some (Some p) ->
  lookup "name" second = Some (Some n) ->
  lookup "surname" second = Some (Some s) ->
  register generate_password_hash second salt3 salt4
           (snd (register generate_password_hash first salt1 salt2 db))
  = (Returned (mkResponse 409 [("msg", PyStr "User with this login already exists")]),
     snd (register generate_password_hash first salt1 salt2 db)).
Proof.
  intros Hr Hst Hl1 Hl2 Hp2 Hn2 Hs2.
  rewrite (register_complete second salt3 salt4 _ l p n s Hl2 Hp2 Hn2 Hs2).
  destruct (register_cases first salt1 salt2 db)
    as [[_ Hno] | (l' & p' & n' & s' & Hl' & _ & _ & _ & _ & E)].
  - elim (Hno r Hr Hst).
  - rewrite Hl1 in Hl'. injection Hl' as <-.
    rewrite E. cbn [snd].
    rewrite existsb_app. cbn [existsb user_login]. rewrite String.eqb_refl.
    rewrite orb_true_r. reflexivity.
Qed.

End AccountProperties.

(** * Worked instances of the further properties *)

(** A stand-in for the two hashing functions: the salt, a dollar sign and
    the password; a password is accepted when the hash ends with it. *)
Definition example_hash (salt password : string) : string :=
  salt ++ "$" ++ password.

Definition example_check (pwhash : string) (password : option string) : result bool :=
  match password with
  | Some p =>
      Returned (String.eqb (substring (String.length pwhash - String.length p)
                                      (String.length p) pwhash) p)
  | None => Raised AttributeError
  end.

Definition example_body : list (string * option string) :=
  [("login", Some "ann"); ("password", Some "secret");
   ("name", Some "Ann"); ("surname", Some "Lee")].

Lemma changed_root_distinct : NoDup (map entry_name changed_root).
Proof. cbn. repeat constructor; cbn; intuition discriminate. Qed.

Lemma unreadable_tree_raises_witness :
  exists e g',
    scan_directory example_date (Some changed_root) true PyNone "" initial = (Raise e, g').
Proof. exact (unreadable_tree_raises example_date (Some changed_root) true PyNone "" initial
                eq_refl). Defined.

Lemma counters_after_pass_witness :
  storage_data (run (update_storage_data example_date (Some example_root)) initial)
  = example_tree
  /\ id_counter (run (update_storage_data example_date (Some example_root)) initial)
     = 1 + Z.of_nat (List.length (preorder example_tree))
  /\ category_id_counter (run (update_storage_data example_date (Some example_root)) initial)
     = 1 + Z.of_nat (List.length (top_categories example_tree)).
Proof.
  apply (counters_after_pass example_date (Some example_root) initial example_tree
           (with_counters initial 8 3)).
  vm_compute. reflexivity.
Defined.

Lemma stale_tree_beside_new_categories_witness :
  categories (run (update_storage_data example_date (Some changed_root))
                  (run (update_categories (Some changed_root)) example_state))
  = category_entries ["Docs"; "B"; "New"]
  /\ storage_data (run (update_storage_data example_date (Some changed_root))
                       (run (update_categories (Some changed_root)) example_state))
     = storage_data example_state.
Proof.
  exact (stale_tree_beside_new_categories example_date changed_root example_state
           changed_root_distinct eq_refl).
Defined.

Lemma node_types_follow_depth_witness :
  forallb (typed_at_depth true)
          (storage_data (run (update_storage_data example_date (Some example_root)) initial))
  = true.
Proof. exact (node_types_follow_depth example_date example_root initial eq_refl). Defined.

Lemma lookup_outside_range_witness :
  get_storage (Some 3) (run (update_storage_data example_date (Some example_root)) initial)
  = not_found.
Proof.
  apply (lookup_outside_range example_date example_root initial 3 eq_refl).
  right. reflexivity.
Defined.

Lemma lookup_in_range_witness :
  exists cat ch,
    get_storage (Some 2) (run (update_storage_data example_date (Some example_root)) initial)
    = JObject cat
    /\ get "name" cat = Some (PyStr "B")
    /\ children_of cat = Some ch
    /\ forallb (tagged 2) (preorder ch) = true.
Proof.
  apply (lookup_in_range example_date example_root initial 2 eq_refl).
  split; discriminate.
Defined.

Lemma find_category_again_witness :
  find_category_dict example_folder 1 = Some example_folder.
Proof.
  apply (find_category_again [example_folder] 1 example_folder). reflexivity.
Defined.

Lemma file_type_edges_witness :
  exists it g',
    scan_entry example_date true PyNone "" (FsFile ".gitignore" (Some (mkStat 0 10))) initial
    = (Ok [it], g')
    /\ get "name" it = Some (PyStr ".gitignore")
    /\ get "fileType" it = Some (PyStr "unknown").
Proof.
  apply (file_type_edges example_date true PyNone "" (mkStat 0 10) initial "gitignore").
  - discriminate.
  - reflexivity.
  - reflexivity.
Defined.

Lemma file_address_determines_path_witness :
  os_path.join "Docs" "a b" = os_path.join "Docs" "a b".
Proof.
  eapply (file_address_determines_path example_date
            false (PyInt 1) "Docs" "a b" (mkStat 0 1) initial
            false (PyInt 1) "Docs" "a b" (mkStat 0 2) initial).
  - apply scan_entry_file.
  - apply scan_entry_file.
  - reflexivity.
Defined.

Lemma file_size_range_witness :
  exists c,
    file_size 5 = two_decimals c ++ " KB"
    /\ (5 < 1048576 -> 0 <= c <= 102400)
    /\ (1048576 <= 5 -> 100 <= c)
    /\ (c = 0 <-> 5 <= 5).
Proof. exact (file_size_range 5 (Zle_bool_imp_le 0 5 eq_refl)). Defined.

Lemma file_name_and_type_witness :
  exists it g',
    scan_entry example_date false (PyInt 1) "Docs"
               (FsFile "report.pdf" (Some (mkStat 0 2000000))) initial = (Ok [it], g')
    /\ get "name" it = Some (PyStr "report")
    /\ get "fileType" it = Some (PyStr "pdf").
Proof.
  exact (proj1 (file_name_and_type example_date false (PyInt 1) "Docs" (mkStat 0 2000000)
                  initial "report" "pdf" eq_refl eq_refl)).
Defined.

Lemma file_address_characters_witness :
  exists u,
    get "filepath" (file_node "01.01.1970" (PyInt 2) "B" "y z" (mkStat 0 1048576) 7)
    = Some (PyStr (BASE_URL ++ "/files/storage/" ++ u))
    /\ string_forall url_char u = true.
Proof.
  apply (file_address_characters example_date false (PyInt 2) "B" "y z"
           (mkStat 0 1048576) (with_counters initial 7 3) _
           (with_counters initial 8 3)).
  apply scan_entry_file.
Defined.

Lemma register_appends_or_keeps_witness :
  register example_hash example_body "t" "s" []
  = (Returned (mkResponse 201
                 [("msg", PyStr "User registered successfully");
                  ("token", PyStr "t$annsecretAnnLee")]),
     [mkUser 1 "ann" "s$secret" "Ann" "Lee" None "t$annsecretAnnLee"]).
Proof.
  apply (proj1 (register_appends_or_keeps example_hash example_body "t" "s" [])
           "ann" "secret" "Ann" "Lee"); try reflexivity.
  intros [].
Defined.

Lemma register_keeps_rows_distinct_witness :
  NoDup (map user_login (snd (register example_hash example_body "t" "s" [])))
  /\ NoDup (map user_id (snd (register example_hash example_body "t" "s" []))).
Proof.
  exact (register_keeps_rows_distinct example_hash example_body "t" "s" []
           (NoDup_nil _) (NoDup_nil _)).
Defined.

Lemma register_then_login_witness :
  fst (register example_hash example_body "t" "s" [])
  = Returned (mkResponse 201
                [("msg", PyStr "User registered successfully");
                 ("token", PyStr "t$annsecretAnnLee")])
  /\ login example_check [("login", Some "ann"); ("password", Some "secret")]
           (snd (register example_hash example_body "t" "s" []))
     = Returned (mkResponse 200
                   [("id", PyInt 1); ("login", PyStr "ann"); ("name", PyStr "Ann");
                    ("surname", PyStr "Lee"); ("post", PyNone);
                    ("token", PyStr "t$annsecretAnnLee")]).
Proof.
  apply (register_then_login example_hash example_check example_body "t" "s" []
           "ann" "secret" "Ann" "Lee" [("login", Some "ann"); ("password", Some "secret")]);
    try reflexivity.
  intros [].
Defined.

Lemma second_registration_refused_witness :
  register example_hash
           [("login", Some "ann"); ("password", Some "other");
            ("name", Some "A"); ("surname", Some "B")] "u" "v"
           (snd (register example_hash example_body "t" "s" []))
  = (Returned (mkResponse 409 [("msg", PyStr "User with this login already exists")]),
     snd (register example_hash example_body "t" "s" [])).
Proof.
  eapply (second_registration_refused example_hash example_body
            [("login", Some "ann"); ("password", Some "other");
             ("name", Some "A"); ("surname", Some "B")]
            "t" "s" "u" "v" [] _ "ann" "other" "A" "B"); reflexivity.
Defined.
